(** * Prediction heads of the pairwise decoder: [src/model/modules/head.py]

    A shallow embedding of [DistogramHead], [BondTypeHead] and
    [PairwiseHead] together with the tensor operations their [forward]
    methods call, followed by the properties of the heads.

    - Tensors are nested lists indexed by their rank: a rank-0 tensor is a
      scalar, a rank-[S n] tensor is the list of its slices along axis 0.
    - Scalars are kept abstract (a type with [zero], [one], [add], [mul]);
      every theorem lists the algebraic laws it relies on.
    - The scalars of the program are IEEE floats: the kernel's binary64
      numbers are an instance, and what depends on rounding, overflow or
      [nan] is stated and checked on it.
    - A Python exception is the result [None].
    - [forward] is a method on a module object: it is embedded as a
      computation over the object ([self]) that returns the value together
      with the object as the call leaves it. *)

From Stdlib Require Floats.
From Stdlib Require Import String.
From Stdlib Require Import List Arith Lia Bool ZArith.
Import ListNotations.

(* ================================================================== *)
(** * Scalars *)

Class Scalar (R : Type) : Type := {
  zero : R;
  one  : R;
  add  : R -> R -> R;
  mul  : R -> R -> R
}.

Declare Scope scalar_scope.
Delimit Scope scalar_scope with R.
Infix "+" := add : scalar_scope.
Infix "*" := mul : scalar_scope.

(** The scalar 2. *)
Definition two {R : Type} `{Scalar R} : R := (one + one)%R.

(** The integers, used to run the heads on concrete tensors. *)
#[export] Instance Z_Scalar : Scalar Z := {
  zero := 0%Z;
  one  := 1%Z;
  add  := Z.add;
  mul  := Z.mul
}.

(* ================================================================== *)
(** * Calls that may raise, on an object that may change *)

(** [M S A]: a computation on an object of type [S] that either raises
    ([None]) or returns a value of type [A] and the object afterwards. *)
Definition M (S A : Type) : Type := S -> option (A * S).

Definition ret {S A : Type} (a : A) : M S A := fun s => Some (a, s).

Definition bind {S A B : Type} (m : M S A) (f : A -> M S B) : M S B :=
  fun s => match m s with
           | Some (a, s') => f a s'
           | None => None
           end.

(** Reading an attribute of [self]. *)
Definition getattr {S A : Type} (field : S -> A) : M S A :=
  fun s => Some (field s, s).

(** The result of a library function that may raise. *)
Definition lift {S A : Type} (o : option A) : M S A :=
  fun s => match o with
           | Some a => Some (a, s)
           | None => None
           end.

(** Raising an exception. *)
Definition raise {S A : Type} : M S A := fun _ => None.

(** Calling a sub-module held in an attribute: the call runs on the
    sub-module, which is then stored back (objects are shared by
    reference, so whatever the callee did to itself is seen by [self]). *)
Definition call {S T A : Type} (field : S -> T) (update : T -> S -> S)
    (m : M T A) : M S A :=
  fun s => match m (field s) with
           | Some (a, t') => Some (a, update t' s)
           | None => None
           end.

Declare Scope call_scope.
Delimit Scope call_scope with call.
Notation "x <- m ;; k" := (bind m (fun x => k))
  (at level 61, m at next level, right associativity) : call_scope.

(** The same call made twice in a row on one object. *)
Definition twice {S A : Type} (m : M S A) : M S (A * A) :=
  (a <- m ;; b <- m ;; ret (a, b))%call.

(** A call that leaves the object as it found it. *)
Definition stateless {S A : Type} (m : M S A) : Prop :=
  forall s a s', m s = Some (a, s') -> s' = s.

(* ================================================================== *)
(** * Lists: the helpers the tensor operations are written with *)

(** [mapM f l]: [f] on every element, raising as soon as one call does. *)
Fixpoint mapM {A B : Type} (f : A -> option B) (l : list A)
    : option (list B) :=
  match l with
  | [] => Some []
  | x :: l' =>
      match f x with
      | Some y =>
          match mapM f l' with
          | Some ys => Some (y :: ys)
          | None => None
          end
      | None => None
      end
  end.

(** [zipWithM f l1 l2]: [f] on the elements at equal positions. *)
Fixpoint zipWithM {A B C : Type} (f : A -> B -> option C)
    (l1 : list A) (l2 : list B) : option (list C) :=
  match l1, l2 with
  | x :: l1', y :: l2' =>
      match f x y with
      | Some z =>
          match zipWithM f l1' l2' with
          | Some zs => Some (z :: zs)
          | None => None
          end
      | None => None
      end
  | _, _ => Some []
  end.

(** [zipWith f l1 l2]: the total version. *)
Fixpoint zipWith {A B C : Type} (f : A -> B -> C)
    (l1 : list A) (l2 : list B) : list C :=
  match l1, l2 with
  | x :: l1', y :: l2' => f x y :: zipWith f l1' l2'
  | _, _ => []
  end.

(** Entry [(i, j)] of a list of rows. *)
Definition entry {Y : Type} (m : list (list Y)) (i j : nat) : option Y :=
  match nth_error m i with
  | Some r => nth_error r j
  | None => None
  end.

(** Column [j] of a list of rows. *)
Definition column {X : Type} (j : nat) (m : list (list X)) : list X :=
  flat_map (fun r => match nth_error r j with
                     | Some x => [x]
                     | None => []
                     end) m.

(** Exchange of the two outer axes of a list of rows: the result has one
    row per column of the first row. *)
Definition transpose {X : Type} (m : list (list X)) : list (list X) :=
  match m with
  | [] => []
  | r :: _ => map (fun j => column j m) (seq 0 (length r))
  end.

(* ================================================================== *)
(** * Tensors and the [torch] operations used by the heads *)

Module Torch.
Section Tensor.
Context {R : Type} `{Scalar R}.

(** A tensor of rank [n]. *)
Fixpoint tensor (n : nat) : Type :=
  match n with
  | 0 => R
  | S n' => list (tensor n')
  end.

(** [has_shape n s t]: [s] lists [n] sizes and [t] has these sizes along
    its [n] axes.  A tensor with an empty axis holds no slice, and has
    every shape of [n] sizes that agrees with it up to that axis. *)
Fixpoint has_shape (n : nat) (s : list nat) : tensor n -> bool :=
  match n return tensor n -> bool with
  | 0 => fun _ => match s with [] => true | _ :: _ => false end
  | S n' => fun t : list (tensor n') =>
      match s with
      | [] => false
      | d :: s' =>
          (length s' =? n') && (length t =? d)
          && forallb (has_shape n' s') t
      end
  end.

(** The tensor of shape [s] filled with [x] ([torch.full]). *)
Fixpoint full (n : nat) (s : list nat) (x : R) : tensor n :=
  match n return tensor n with
  | 0 => x
  | S n' =>
      match s with
      | [] => []
      | d :: s' => repeat (full n' s' x) d
      end
  end.

(** [t.unsqueeze(0)]: a new leading axis of size one. *)
Definition unsqueeze0 {n : nat} (t : tensor n) : tensor (S n) := [t].

(** [t.transpose(-2, -3)] on a tensor of rank [3 + n]: under the [n]
    leading axes, the two axes before the last one are exchanged. *)
Fixpoint transpose_m2_m3 (n : nat)
    : tensor (S (S (S n))) -> tensor (S (S (S n))) :=
  match n return tensor (S (S (S n))) -> tensor (S (S (S n))) with
  | 0 => fun t : list (list (tensor 1)) => transpose t
  | S n' => fun t : list (tensor (S (S (S n')))) =>
      map (transpose_m2_m3 n') t
  end.

(** [a + b] on tensors of one rank, with broadcasting: along each axis
    the sizes are equal, or one of them is 1 and that slice is used
    against every slice of the other operand; anything else raises. *)
Fixpoint tadd (n : nat) : tensor n -> tensor n -> option (tensor n) :=
  match n return tensor n -> tensor n -> option (tensor n) with
  | 0 => fun a b => Some (a + b)%R
  | S n' => fun a b : list (tensor n') =>
      if length a =? length b then zipWithM (tadd n') a b
      else match a, b with
           | [a0], _ => mapM (tadd n' a0) b
           | _, [b0] => mapM (fun x => tadd n' x b0) a
           | _, _ => None
           end
  end.

(** [F.linear(x, weight, bias)] on one feature vector: the affine map
    [x |-> x . weight^T + bias]; [weight] is the list of its rows, one
    per output feature. *)
Definition dot (x w : list R) : R :=
  fold_right (fun p acc => (fst p * snd p + acc)%R) zero (combine x w).

Definition add_bias (bias : option (list R)) (y : list R) : list R :=
  match bias with
  | None => y
  | Some b => zipWith add y b
  end.

Definition affine (weight : list (list R)) (bias : option (list R))
    (x : list R) : list R :=
  add_bias bias (map (dot x) weight).

(** [F.linear] on a tensor of rank [1 + n]: the affine map on the last
    axis, under the [n] leading axes.  A last axis whose size is not
    [in_features] raises. *)
Fixpoint linear (n : nat) (in_features : nat) (weight : list (list R))
    (bias : option (list R)) : tensor (S n) -> option (tensor (S n)) :=
  match n return tensor (S n) -> option (tensor (S n)) with
  | 0 => fun x : list R =>
      if length x =? in_features then Some (affine weight bias x)
      else None
  | S n' => fun t : list (tensor (S n')) =>
      mapM (linear n' in_features weight bias) t
  end.

(** Indexing: [t[b1, ..., bn]] on a tensor of rank [3 + n], then
    [m[i, j]] on the rank-3 tensor that is left.  An index out of range
    is [None]. *)
Fixpoint batch_item (n : nat) (bs : list nat)
    : tensor (S (S (S n))) -> option (tensor 3) :=
  match n return tensor (S (S (S n))) -> option (tensor 3) with
  | 0 => fun t => match bs with [] => Some t | _ :: _ => None end
  | S n' => fun t : list (tensor (S (S (S n')))) =>
      match bs with
      | [] => None
      | b :: bs' =>
          match nth_error t b with
          | Some t' => batch_item n' bs' t'
          | None => None
          end
      end
  end.

Definition pair_item (m : tensor 3) (i j : nat) : option (tensor 1) :=
  entry (m : list (list (tensor 1))) i j.

Definition item (n : nat) (t : tensor (S (S (S n)))) (bs : list nat)
    (i j : nat) : option (tensor 1) :=
  match batch_item n bs t with
  | Some m => pair_item m i j
  | None => None
  end.

(** The sum of two feature vectors that may be missing (an index out of
    range): missing as soon as one of them is. *)
Definition pair_sum (u v : option (tensor 1)) : option (tensor 1) :=
  match u, v with
  | Some u', Some v' => tadd 1 u' v'
  | _, _ => None
  end.

End Tensor.

Arguments tensor : clear implicits.

(** A tensor packed with its rank, for fields that hold tensors of any
    rank. *)
Record Tensor (R : Type) : Type := pack {
  rank : nat;
  data : tensor R rank
}.

Arguments pack {R} rank data.
Arguments rank {R} _.
Arguments data {R} _.

End Torch.

(* ================================================================== *)
(** * The [Linear] primitive ([src/model/modules/primitives.py]) *)

Module Linear.

(** Modelled from the spec: the module [src.model.modules.primitives] is
    not part of this file's source.  The spec describes [Linear] as a
    linear-projection primitive that, given input and output feature
    widths and an initialization strategy, applies an affine map over the
    trailing feature axis; with the strategy ["zeros"] the weights are
    zero and the bias is zero or absent. *)
Record t (R : Type) : Type := mk {
  in_features  : nat;
  out_features : nat;
  weight : list (list R);     (* [out_features] rows of [in_features] *)
  bias   : option (list R)    (* [out_features] entries, when present *)
}.

Arguments mk {R} _ _ _ _.
Arguments in_features {R} _.
Arguments out_features {R} _.
Arguments weight {R} _.
Arguments bias {R} _.

(** Modelled from the spec: what the spec leaves open about the
    primitive.  Whether a layer carries a bias when the caller does not
    say, and the values the default initialization strategy writes. *)
Record defaults (R : Type) : Type := mk_defaults {
  use_bias : bool;
  default_weight : nat -> nat -> list (list R);
  default_bias : nat -> list R
}.

Arguments mk_defaults {R} _ _ _.
Arguments use_bias {R} _.
Arguments default_weight {R} _ _ _.
Arguments default_bias {R} _ _.

Section Linear.
Context {R : Type} `{Scalar R}.

(** Modelled from the spec: [Linear(in_features, out_features,
    initializer=...)]. *)
Definition init (D : defaults R) (in_features out_features : nat)
    (initializer : string) : t R :=
  let zeros := String.eqb initializer "zeros" in
  {| in_features := in_features;
     out_features := out_features;
     weight := if zeros then repeat (repeat zero in_features) out_features
               else default_weight D in_features out_features;
     bias := if use_bias D
             then Some (if zeros then repeat zero out_features
                        else default_bias D out_features)
             else None |}.

(** Modelled from the spec: [Linear.forward], the affine map over the
    trailing axis; it reads the parameters and assigns nothing. *)
Definition forward (n : nat) (input : Torch.tensor R (S n))
    : M (t R) (Torch.tensor R (S n)) :=
  (w <- getattr weight ;;
   b <- getattr bias ;;
   c <- getattr in_features ;;
   lift (Torch.linear n c w b input))%call.

(** The weights and the bias of the one affine map that does what two
    layers in a row do: row [o] of the weights is the sum of the rows of
    the first layer scaled by the entries of row [o] of the second, and
    the bias is the bias of the first layer sent through the second. *)
Definition compose_row (c : nat) (w1 : list (list R)) (w2 : list R)
    : list R :=
  fold_right
    (fun p acc => zipWith add (map (fun e => (e * snd p)%R) (fst p)) acc)
    (repeat zero c) (combine w1 w2).

Definition compose (l1 l2 : t R) : t R :=
  {| in_features := in_features l1;
     out_features := out_features l2;
     weight := map (compose_row (in_features l1) (weight l1)) (weight l2);
     bias :=
       match bias l1, bias l2 with
       | None, None => None
       | None, Some b2 => Some b2
       | Some b1, None => Some (map (Torch.dot b1) (weight l2))
       | Some b1, Some b2 =>
           Some (zipWith add (map (Torch.dot b1) (weight l2)) b2)
       end |}.

(** The parameters have the sizes the layer was built with. *)
Definition wf (l : t R) : bool :=
  (length (weight l) =? out_features l)
  && forallb (fun r => length r =? in_features l) (weight l)
  && match bias l with
     | None => true
     | Some b => length b =? out_features l
     end.

End Linear.
End Linear.

(* ================================================================== *)
(** * [nn.Sequential] over [Linear] layers *)

Module Sequential.
Section Sequential.
Context {R : Type} `{Scalar R}.

(** [for module in self: input = module(input)]. *)
Fixpoint run (n : nat) (layers : list (Linear.t R))
    (input : Torch.tensor R (S n))
    : option (Torch.tensor R (S n) * list (Linear.t R)) :=
  match layers with
  | [] => Some (input, [])
  | l :: layers' =>
      match Linear.forward n input l with
      | Some (output, l') =>
          match run n layers' output with
          | Some (result, layers'') => Some (result, l' :: layers'')
          | None => None
          end
      | None => None
      end
  end.

Definition forward (n : nat) (input : Torch.tensor R (S n))
    : M (list (Linear.t R)) (Torch.tensor R (S n)) :=
  fun layers => run n layers input.

End Sequential.
End Sequential.

(* ================================================================== *)
(** * The records exchanged with the rest of the model
      ([src/api/model_interface.py]) *)

(** Modelled from the spec: the declaration of [PairFormerOutput] is not
    part of this file's source.  The spec gives it a tensor field [z] of
    shape [(..., N_token, N_token, c_z)]; [n] counts the leading axes. *)
Record PairFormerOutput (R : Type) (n : nat) : Type := mkPairFormerOutput {
  z : Torch.tensor R (S (S (S n)))
}.

Arguments mkPairFormerOutput {R} n z.
Arguments z {R n} _.

(** Modelled from the spec: the declaration of [PairwiseOutput] is not
    part of this file's source.  The spec describes an aggregate of the
    distogram logits and the bond-type logits, the latter present or
    absent. *)
Record PairwiseOutput (R : Type) : Type := mkPairwiseOutput {
  distogram : Torch.Tensor R;
  token_bond_type_logits : option (Torch.Tensor R)
}.

Arguments mkPairwiseOutput {R} _ _.
Arguments distogram {R} _.
Arguments token_bond_type_logits {R} _.

(* ================================================================== *)
(** * [class DistogramHead] *)

Module DistogramHead.

Record t (R : Type) : Type := mk {
  c_z     : nat;
  no_bins : nat;
  linear  : Linear.t R
}.

Arguments mk {R} _ _ _.
Arguments c_z {R} _.
Arguments no_bins {R} _.
Arguments linear {R} _.

Section DistogramHead.
Context {R : Type} `{Scalar R}.

Definition set_linear (l : Linear.t R) (self : t R) : t R :=
  {| c_z := c_z self; no_bins := no_bins self; linear := l |}.

(** [__init__(self, c_z=128, no_bins=64)]. *)
Definition init (D : Linear.defaults R) (c_z no_bins : nat) : t R :=
  {| c_z := c_z;
     no_bins := no_bins;
     linear := Linear.init D c_z no_bins "zeros" |}.

(** [forward(self, z)], [z] of shape [[*, N_token, N_token, C_z]] with
    [n] leading axes. *)
Definition forward (n : nat) (z : Torch.tensor R (S (S (S n))))
    : M (t R) (Torch.tensor R (S (S (S n)))) :=
  (logits <- call linear set_linear (Linear.forward (S (S n)) z) ;;
   logits <- lift (Torch.tadd (S (S (S n))) logits
                     (Torch.transpose_m2_m3 n logits)) ;;
   ret logits)%call.

(** The head as configured: the layer maps [c_z] features to [no_bins]
    and its parameters have those sizes. *)
Definition wf (self : t R) : bool :=
  (Linear.in_features (linear self) =? c_z self)
  && (Linear.out_features (linear self) =? no_bins self)
  && Linear.wf (linear self).

End DistogramHead.
End DistogramHead.

(* ================================================================== *)
(** * [class BondTypeHead] *)

Module BondTypeHead.

Record t (R : Type) : Type := mk {
  c_in          : nat;
  c_hidden      : nat;
  no_bond_types : nat;
  classifier    : list (Linear.t R)
}.

Arguments mk {R} _ _ _ _.
Arguments c_in {R} _.
Arguments c_hidden {R} _.
Arguments no_bond_types {R} _.
Arguments classifier {R} _.

Section BondTypeHead.
Context {R : Type} `{Scalar R}.

Definition set_classifier (c : list (Linear.t R)) (self : t R) : t R :=
  {| c_in := c_in self; c_hidden := c_hidden self;
     no_bond_types := no_bond_types self; classifier := c |}.

(** [__init__(self, c_z=1, c_hidden=128, no_bond_types=len(BOND_TYPE))]:
    both layers take the default initializer of [Linear]. *)
Definition init (D : Linear.defaults R) (c_z c_hidden no_bond_types : nat)
    : t R :=
  {| c_in := c_z;
     c_hidden := c_hidden;
     no_bond_types := no_bond_types;
     classifier := [ Linear.init D c_z c_hidden "default";
                     Linear.init D c_hidden no_bond_types "default" ] |}.

(** [forward(self, z)]: [self.classifier(z.unsqueeze(0))]. *)
Definition forward (n : nat) (z : Torch.tensor R n)
    : M (t R) (Torch.tensor R (S n)) :=
  (logits <- call classifier set_classifier
               (Sequential.forward n (Torch.unsqueeze0 z)) ;;
   ret logits)%call.

(** The head as configured: two layers, [c_in -> c_hidden] and
    [c_hidden -> no_bond_types], with parameters of those sizes. *)
Definition wf (self : t R) : bool :=
  match classifier self with
  | [l1; l2] =>
      (Linear.in_features l1 =? c_in self)
      && (Linear.out_features l1 =? c_hidden self)
      && (Linear.in_features l2 =? c_hidden self)
      && (Linear.out_features l2 =? no_bond_types self)
      && Linear.wf l1 && Linear.wf l2
  | _ => false
  end.

End BondTypeHead.
End BondTypeHead.

(* ================================================================== *)
(** * [class PairwiseHead] *)

Module PairwiseHead.

(** The attribute [bond_type_head] exists only when the constructor was
    given a true [bond_reconstruction]. *)
Record t (R : Type) : Type := mk {
  distogram_head      : DistogramHead.t R;
  bond_reconstruction : bool;
  bond_type_head      : option (BondTypeHead.t R)
}.

Arguments mk {R} _ _ _.
Arguments distogram_head {R} _.
Arguments bond_reconstruction {R} _.
Arguments bond_type_head {R} _.

Section PairwiseHead.
Context {R : Type} `{Scalar R}.

Definition set_distogram_head (d : DistogramHead.t R) (self : t R) : t R :=
  {| distogram_head := d;
     bond_reconstruction := bond_reconstruction self;
     bond_type_head := bond_type_head self |}.

Definition set_bond_type_head (b : BondTypeHead.t R) (self : t R) : t R :=
  {| distogram_head := distogram_head self;
     bond_reconstruction := bond_reconstruction self;
     bond_type_head := Some b |}.

(** Calling the sub-module in [self.bond_type_head]: an attribute that
    was never assigned raises [AttributeError]. *)
Definition call_bond_type_head {A : Type} (m : M (BondTypeHead.t R) A)
    : M (t R) A :=
  fun self =>
    match bond_type_head self with
    | Some b =>
        match m b with
        | Some (a, b') => Some (a, set_bond_type_head b' self)
        | None => None
        end
    | None => raise self
    end.

(** [__init__(self, c_z=128, no_bond_types=len(BOND_TYPE), no_bins=64,
    bond_reconstruction=True)]; [BondTypeHead] is built with its default
    [c_hidden=128]. *)
Definition init (D : Linear.defaults R) (c_z no_bond_types no_bins : nat)
    (bond_reconstruction : bool) : t R :=
  {| distogram_head := DistogramHead.init D c_z no_bins;
     bond_reconstruction := bond_reconstruction;
     bond_type_head :=
       if bond_reconstruction
       then Some (BondTypeHead.init D c_z 128 no_bond_types)
       else None |}.

(** [forward(self, input_embedding)]. *)
Definition forward (n : nat) (input_embedding : PairFormerOutput R n)
    : M (t R) (PairwiseOutput R) :=
  (distogram <- call distogram_head set_distogram_head
                  (DistogramHead.forward n (z input_embedding)) ;;
   flag <- getattr bond_reconstruction ;;
   token_bond_type_logits <-
     (if flag : bool
      then logits <- call_bond_type_head
                       (BondTypeHead.forward (S (S (S n)))
                          (z input_embedding)) ;;
           ret (Some (Torch.pack (S (S (S (S n)))) logits))
      else ret None) ;;
   ret (mkPairwiseOutput (Torch.pack (S (S (S n))) distogram)
          token_bond_type_logits))%call.

(** The head as configured for [c_z] features: its distogram head, and
    its bond-type head exactly when [bond_reconstruction] is set, all for
    the same [c_z]. *)
Definition wf (self : t R) : bool :=
  DistogramHead.wf (distogram_head self)
  && match bond_type_head self with
     | Some b =>
         bond_reconstruction self
         && BondTypeHead.wf b
         && (BondTypeHead.c_in b =? DistogramHead.c_z (distogram_head self))
     | None => negb (bond_reconstruction self)
     end.

End PairwiseHead.
End PairwiseHead.

(* ================================================================== *)
(** * Concrete heads and inputs over the integers *)

Module Example.
Import Torch.
Open Scope Z_scope.

(** A [Linear] primitive with a bias, whose default strategy writes ones
    in the weights and twos in the bias. *)
Definition D : Linear.defaults Z :=
  Linear.mk_defaults true
    (fun i o => repeat (repeat 1 i) o) (fun o => repeat 2 o).

(** A trained distogram head, [c_z = 4] and [no_bins = 2]. *)
Definition distogram_head : DistogramHead.t Z :=
  DistogramHead.mk 4 2
    (Linear.mk 4 2 [[1; 2; 3; 4]; [0; -1; 0; 1]] (Some [5; 7])).

(** A trained bond-type head, [c_in = 4], [c_hidden = 3] and
    [no_bond_types = 2]. *)
Definition bond_type_head : BondTypeHead.t Z :=
  BondTypeHead.mk 4 3 2
    [ Linear.mk 4 3 [[1; 0; 2; 0]; [0; 1; 0; -1]; [3; 1; 1; 1]]
        (Some [1; -2; 0]);
      Linear.mk 3 2 [[1; 1; 0]; [2; 0; -1]] (Some [4; 6]) ].

(** A pairwise head that holds both of them. *)
Definition pairwise_head : PairwiseHead.t Z :=
  PairwiseHead.mk distogram_head true (Some bond_type_head).

(** An input of shape [(1, 3, 3, 4)], not symmetric in its token axes. *)
Definition z_1334 : tensor Z 4 :=
  [ map (fun i =>
      map (fun j =>
        map (fun k => Z.of_nat (i * i + 2 * j + k)) (seq 0 4))
        (seq 0 3))
      (seq 0 3) ].

(** The same values without the leading axis: shape [(3, 3, 4)]. *)
Definition z_334 : tensor Z 3 :=
  map (fun i =>
    map (fun j =>
      map (fun k => Z.of_nat (i * i + 2 * j + k)) (seq 0 4))
      (seq 0 3))
    (seq 0 3).

End Example.

(* ================================================================== *)
(** * One axis of a broadcasting sum *)

(** What [Torch.tadd] does along one axis, given the sum [f] of the
    slices: equal sizes are paired off, a single slice is used against
    every slice of the other operand, anything else raises. *)
Definition broadcast {A : Type} (f : A -> A -> option A) (a b : list A)
    : option (list A) :=
  if length a =? length b then zipWithM f a b
  else match a, b with
       | [a0], _ => mapM (f a0) b
       | _, [b0] => mapM (fun x => f x b0) a
       | _, _ => None
       end.

(* ================================================================== *)
(** * A function on every feature vector *)

(** [map_last n f t]: [f] on the last axis of [t], under the [n] leading
    axes.  This is what a layer does to a tensor on which it returns. *)
Fixpoint map_last {R : Type} (n : nat) (f : list R -> list R)
    : Torch.tensor R (S n) -> Torch.tensor R (S n) :=
  match n return Torch.tensor R (S n) -> Torch.tensor R (S n) with
  | 0 => fun x : list R => f x
  | S n' => fun t : list (Torch.tensor R (S n')) => map (map_last n' f) t
  end.

(* ================================================================== *)
(** * Further heads and inputs over the integers *)

Module Example2.
Import Torch.
Open Scope Z_scope.

(** An input of shape [(a, b, c)]. *)
Definition ramp (a b c : nat) : tensor Z 3 :=
  map (fun i =>
    map (fun j =>
      map (fun k => Z.of_nat (i * i + 2 * j + k)) (seq 0 c))
      (seq 0 b))
    (seq 0 a).

(** A batch of two inputs of shape [(3, 3, 4)]. *)
Definition z_2334 : tensor Z 4 := [ramp 3 3 4; transpose (ramp 3 3 4)].

(** A bond-type head built for a pair embedding of width one,
    [c_in = 1], [c_hidden = 2] and [no_bond_types = 3]. *)
Definition narrow_bond_type_head : BondTypeHead.t Z :=
  BondTypeHead.mk 1 2 3
    [ Linear.mk 1 2 [[2]; [3]] (Some [1; 0]);
      Linear.mk 2 3 [[1; 1]; [0; 1]; [1; 0]] None ].

(** A pairwise head built without bond-type head, whose flag was set
    afterwards. *)
Definition flag_set_later : PairwiseHead.t Z :=
  PairwiseHead.mk Example.distogram_head true None.

(** A pairwise head built with a bond-type head, whose flag was cleared
    afterwards. *)
Definition flag_cleared_later : PairwiseHead.t Z :=
  PairwiseHead.mk Example.distogram_head false
    (Some Example.bond_type_head).

End Example2.

(* ================================================================== *)
(** * The scalars of the program: IEEE floating-point numbers *)

(** The entries of a [torch.Tensor] are IEEE floats.  The kernel's
    binary64 numbers stand for them: addition and multiplication round,
    overflow to an infinity, and give [nan] on [infinity * 0]. *)
#[export] Instance Float_Scalar : Scalar PrimFloat.float := {
  zero := PrimFloat.zero;
  one  := PrimFloat.one;
  add  := PrimFloat.add;
  mul  := PrimFloat.mul
}.

Section Entries.
Context {R : Type} `{Scalar R}.

(** [entries_all P n t]: every entry of [t] satisfies [P]. *)
Fixpoint entries_all (P : R -> Prop) (n : nat) : Torch.tensor R n -> Prop :=
  match n return Torch.tensor R n -> Prop with
  | 0 => fun x => P x
  | S n' => fun t : list (Torch.tensor R n') => Forall (entries_all P n') t
  end.

(** An entry that a zero weight sends to zero: the term [a * 0] that it
    adds to a sum that is zero leaves the sum zero.  Every finite float
    is one; an infinity and [nan] are not. *)
Definition vanishes (a : R) : Prop := (a * zero + zero)%R = zero.

End Entries.

(** An entry that is neither an infinity nor [nan]. *)
Definition finite (a : PrimFloat.float) : Prop :=
  PrimFloat.is_finite a = true.

Module ExampleFloat.
Import Floats.
Import Torch.

(** A [Linear] primitive with a bias, whose default strategy writes
    [2^600] everywhere. *)
Definition D : Linear.defaults float :=
  Linear.mk_defaults true
    (fun i o => repeat (repeat 0x1p600%float i) o)
    (fun o => repeat 0x1p600%float o).

(** An input of shape [(1, 3, 3, 4)] with finite entries of both signs. *)
Definition z_finite : tensor float 4 :=
  [ [ [ [1.5; -2; 0; 0x1p996]; [-0; 3; 0.125; -7];    [4; 4; 4; 4] ];
      [ [0; 0; 0; 0];          [-0x1p-1000; 2; 5; 1];  [9; -9; 9; -9] ];
      [ [1; 2; 3; 4];          [0.5; 0.25; -1; 6];  [-3; 0; 3; 0] ] ] ]%float.

(** The same input with one infinite entry, in the vector at token pair
    [(1, 2)]. *)
Definition z_infinite : tensor float 4 :=
  [ [ [ [1.5; -2; 0; 0x1p996]; [-0; 3; 0.125; -7];    [4; 4; 4; 4] ];
      [ [0; 0; 0; 0];          [-0x1p-1000; 2; 5; 1];  [9; infinity; 9; -9] ];
      [ [1; 2; 3; 4];          [0.5; 0.25; -1; 6];  [-3; 0; 3; 0] ] ] ]%float.

(** The bond-type head that [__init__] builds for [c_z = 1],
    [c_hidden = 1] and [no_bond_types = 1] on [D]: all four parameters
    are the finite number [2^600]. *)
Definition bond_type_head : BondTypeHead.t float :=
  BondTypeHead.init D 1 1 1.

(** A trained bond-type head with weights [2] and [1/2] and no bias. *)
Definition halving_head : BondTypeHead.t float :=
  BondTypeHead.mk 1 1 1
    [ Linear.mk 1 1 [[2%float]] None; Linear.mk 1 1 [[0.5%float]] None ].

End ExampleFloat.

(* ================================================================== *)
(** * Properties *)

(** ** Lists *)

Section ListFacts.
Context {A B C : Type}.

Lemma mapM_length (f : A -> option B) l l' :
  mapM f l = Some l' -> length l' = length l.
Proof.
  revert l'. induction l as [|x l IH]; simpl; intros l' E.
  - inversion E. reflexivity.
  - destruct (f x); [|discriminate].
    destruct (mapM f l); [|discriminate].
    inversion E; subst. simpl. f_equal. apply IH. reflexivity.
Qed.

Lemma mapM_nth_error (f : A -> option B) l l' i :
  mapM f l = Some l' ->
  nth_error l' i = match nth_error l i with
                   | Some x => f x
                   | None => None
                   end.
Proof.
  revert l' i. induction l as [|x l IH]; simpl; intros l' i E.
  - inversion E. destruct i; reflexivity.
  - destruct (f x) eqn:Ex; [|discriminate].
    destruct (mapM f l) eqn:El; [|discriminate].
    inversion E; subst. destruct i; simpl.
    + symmetry. exact Ex.
    + apply IH. reflexivity.
Qed.

(** [mapM] succeeds when every call does, and keeps what the calls
    establish. *)
Lemma mapM_In (P : B -> Prop) (f : A -> option B) l :
  (forall x, In x l -> exists y, f x = Some y /\ P y) ->
  exists l', mapM f l = Some l' /\ length l' = length l
             /\ (forall y, In y l' -> P y).
Proof.
  induction l as [|x l IH]; simpl; intros Hf.
  - exists []. repeat split. intros y [].
  - destruct (Hf x (or_introl eq_refl)) as (y & Ey & Py).
    destruct IH as (l' & El & Hlen & HP).
    { intros x' Hx'. apply Hf. right. exact Hx'. }
    rewrite Ey, El. exists (y :: l'). repeat split.
    + simpl. f_equal. exact Hlen.
    + intros y' [<-|Hy']; [exact Py | apply HP; exact Hy'].
Qed.

Lemma mapM_const (f : A -> option B) l v :
  (forall x, In x l -> f x = Some v) ->
  mapM f l = Some (repeat v (length l)).
Proof.
  induction l as [|x l IH]; simpl; intros Hf; [reflexivity|].
  rewrite (Hf x (or_introl eq_refl)), IH; [reflexivity|].
  intros x' Hx'. apply Hf. right. exact Hx'.
Qed.

Lemma zipWithM_nth_error (f : A -> B -> option C) l1 l2 l i :
  length l1 = length l2 ->
  zipWithM f l1 l2 = Some l ->
  nth_error l i = match nth_error l1 i, nth_error l2 i with
                  | Some x, Some y => f x y
                  | _, _ => None
                  end.
Proof.
  revert l2 l i. induction l1 as [|x l1 IH]; intros [|y l2] l i Hlen E;
    simpl in *; try discriminate.
  - inversion E. destruct i; reflexivity.
  - destruct (f x y) eqn:Exy; [|discriminate].
    destruct (zipWithM f l1 l2) eqn:El; [|discriminate].
    inversion E; subst. destruct i; simpl.
    + symmetry. exact Exy.
    + apply IH; [lia | exact El].
Qed.

Lemma zipWithM_length (f : A -> B -> option C) l1 l2 l :
  length l1 = length l2 ->
  zipWithM f l1 l2 = Some l -> length l = length l1.
Proof.
  revert l2 l. induction l1 as [|x l1 IH]; intros [|y l2] l Hlen E;
    simpl in *; try discriminate.
  - inversion E. reflexivity.
  - destruct (f x y); [|discriminate].
    destruct (zipWithM f l1 l2) eqn:El; [|discriminate].
    inversion E; subst. simpl. f_equal. apply (IH l2); [lia | exact El].
Qed.

(** [zipWithM] succeeds on lists of one length when every call does. *)
Lemma zipWithM_In (P : C -> Prop) (f : A -> B -> option C) l1 l2 :
  length l1 = length l2 ->
  (forall x y, In x l1 -> In y l2 -> exists z, f x y = Some z /\ P z) ->
  exists l, zipWithM f l1 l2 = Some l /\ length l = length l1
            /\ (forall z, In z l -> P z).
Proof.
  revert l2. induction l1 as [|x l1 IH]; intros [|y l2] Hlen Hf;
    simpl in *; try discriminate.
  - exists []. repeat split. intros z [].
  - destruct (Hf x y (or_introl eq_refl) (or_introl eq_refl))
      as (z & Ez & Pz).
    destruct (IH l2) as (l & El & Hl & HP); [lia| |].
    { intros x' y' Hx' Hy'. apply Hf; right; assumption. }
    rewrite Ez, El. exists (z :: l). repeat split.
    + simpl. f_equal. exact Hl.
    + intros z' [<-|Hz']; [exact Pz | apply HP; exact Hz'].
Qed.

Lemma zipWithM_ext (f g : A -> B -> option C) l1 l2 :
  (forall x y, In x l1 -> In y l2 -> f x y = g x y) ->
  zipWithM f l1 l2 = zipWithM g l1 l2.
Proof.
  revert l2. induction l1 as [|x l1 IH]; intros [|y l2] Hfg; simpl;
    try reflexivity.
  rewrite (Hfg x y (or_introl eq_refl) (or_introl eq_refl)).
  rewrite (IH l2); [reflexivity|].
  intros x' y' Hx' Hy'. apply Hfg; right; assumption.
Qed.

Lemma mapM_ext (f g : A -> option B) l :
  (forall x, f x = g x) -> mapM f l = mapM g l.
Proof.
  intros Hfg. induction l as [|x l IH]; simpl; [reflexivity|].
  rewrite Hfg, IH. reflexivity.
Qed.

Lemma zipWithM_comm (f : A -> B -> option C) (g : B -> A -> option C)
    l1 l2 :
  (forall x y, f x y = g y x) -> zipWithM f l1 l2 = zipWithM g l2 l1.
Proof.
  intros Hfg. revert l2.
  induction l1 as [|x l1 IH]; intros [|y l2]; simpl; try reflexivity.
  rewrite Hfg, IH. reflexivity.
Qed.

Lemma zipWithM_repeat (f : A -> B -> option C) a b c d :
  f a b = Some c ->
  zipWithM f (repeat a d) (repeat b d) = Some (repeat c d).
Proof.
  intros E. induction d as [|d IH]; simpl; [reflexivity|].
  rewrite E, IH. reflexivity.
Qed.

Lemma zipWith_length (f : A -> B -> C) l1 l2 :
  length (zipWith f l1 l2) = Nat.min (length l1) (length l2).
Proof.
  revert l2. induction l1 as [|x l1 IH]; intros [|y l2]; simpl;
    try reflexivity.
  f_equal. apply IH.
Qed.

Lemma zipWith_repeat (f : A -> B -> C) a b d :
  zipWith f (repeat a d) (repeat b d) = repeat (f a b) d.
Proof.
  induction d as [|d IH]; simpl; [reflexivity|]. f_equal. exact IH.
Qed.

Lemma map_const (f : A -> B) l v :
  (forall x, In x l -> f x = v) -> map f l = repeat v (length l).
Proof.
  induction l as [|x l IH]; simpl; intros Hf; [reflexivity|].
  rewrite (Hf x (or_introl eq_refl)), IH; [reflexivity|].
  intros x' Hx'. apply Hf. right. exact Hx'.
Qed.

End ListFacts.

(** ** Columns and transposition of a list of rows *)

Section TransposeFacts.
Context {X : Type}.

(** In a list of rows that all reach position [j], column [j] has one
    entry per row: the entry of that row at [j]. *)
Lemma column_nth_error (m : list (list X)) (j i : nat) :
  (forall r, In r m -> j < length r) ->
  nth_error (column j m) i = match nth_error m i with
                             | Some r => nth_error r j
                             | None => None
                             end.
Proof.
  revert i. induction m as [|r m IH]; intros i Hm.
  - destruct i; reflexivity.
  - assert (Hr : j < length r) by (apply Hm; left; reflexivity).
    unfold column in *. simpl.
    destruct (nth_error r j) as [x|] eqn:Ex.
    + destruct i; simpl.
      * symmetry. exact Ex.
      * apply IH. intros r' Hr'. apply Hm. right. exact Hr'.
    + apply nth_error_None in Ex. lia.
Qed.

Lemma column_length (m : list (list X)) (j : nat) :
  (forall r, In r m -> j < length r) ->
  length (column j m) = length m.
Proof.
  induction m as [|r m IH]; intros Hm; [reflexivity|].
  assert (Hr : j < length r) by (apply Hm; left; reflexivity).
  unfold column in *. simpl.
  destruct (nth_error r j) as [x|] eqn:Ex.
  - simpl. f_equal. apply IH. intros r' Hr'. apply Hm. right. exact Hr'.
  - apply nth_error_None in Ex. lia.
Qed.

Lemma column_In (m : list (list X)) (j : nat) (x : X) :
  In x (column j m) -> exists r, In r m /\ In x r.
Proof.
  unfold column. rewrite in_flat_map. intros (r & Hr & Hx).
  exists r. split; [exact Hr|].
  destruct (nth_error r j) as [x'|] eqn:Ex; simpl in Hx.
  - destruct Hx as [<-|[]]. eapply nth_error_In. exact Ex.
  - destruct Hx.
Qed.

Lemma column_repeat (r : list X) (d j : nat) (x : X) :
  nth_error r j = Some x -> column j (repeat r d) = repeat x d.
Proof.
  intros Ex. unfold column. induction d as [|d IH]; simpl; [reflexivity|].
  rewrite Ex, IH. reflexivity.
Qed.

(** Rows of the transposed: row [i] is column [i], for [i] within the
    width [w] of the rows. *)
Lemma transpose_nth_error (m : list (list X)) (w i : nat) :
  m <> [] ->
  (forall r, In r m -> length r = w) ->
  nth_error (transpose m) i = if i <? w then Some (column i m) else None.
Proof.
  intros Hne Hm. destruct m as [|r m]; [congruence|].
  unfold transpose.
  assert (Hr : length r = w) by (apply Hm; left; reflexivity).
  rewrite Hr. destruct (Nat.ltb_spec i w) as [Hi|Hi].
  - rewrite nth_error_map, nth_error_seq.
    rewrite (proj2 (Nat.ltb_lt i w) Hi). reflexivity.
  - apply nth_error_None. rewrite length_map, length_seq. exact Hi.
Qed.

Lemma transpose_In (m : list (list X)) (w : nat) (x : list X) :
  (forall r, In r m -> length r = w) ->
  In x (transpose m) -> exists j, j < w /\ x = column j m.
Proof.
  intros Hm Hx. destruct m as [|r m]; [destruct Hx|].
  unfold transpose in Hx. apply in_map_iff in Hx.
  destruct Hx as (j & <- & Hj). apply in_seq in Hj.
  exists j. split; [|reflexivity].
  rewrite <- (Hm r (or_introl eq_refl)). lia.
Qed.

Lemma transpose_length (m : list (list X)) (w : nat) :
  m <> [] ->
  (forall r, In r m -> length r = w) ->
  length (transpose m) = w.
Proof.
  intros Hne Hm. destruct m as [|r m]; [congruence|].
  unfold transpose. rewrite length_map, length_seq.
  apply Hm. left. reflexivity.
Qed.

Lemma entry_in_range (m : list (list X)) (h w i j : nat) :
  length m = h ->
  (forall r, In r m -> length r = w) ->
  i < h -> j < w ->
  exists v, entry m i j = Some v.
Proof.
  intros Hlen Hw Hi Hj. unfold entry.
  destruct (nth_error m i) as [r|] eqn:Er.
  - apply nth_error_In in Er. apply Hw in Er.
    destruct (nth_error r j) as [v|] eqn:Ev.
    + exists v. reflexivity.
    + apply nth_error_None in Ev. lia.
  - apply nth_error_None in Er. lia.
Qed.

(** Combining a square list of rows entry by entry with its transposed:
    entry [(i, j)] of the result combines entries [(i, j)] and [(j, i)]. *)
Lemma zip_transpose_entry {Y : Type} (g : X -> X -> option Y)
    (m : list (list X)) (N : nat) (out : list (list Y)) :
  length m = N ->
  (forall r, In r m -> length r = N) ->
  zipWithM (zipWithM g) m (transpose m) = Some out ->
  forall i j,
    entry out i j = match entry m i j, entry m j i with
                    | Some u, Some v => g u v
                    | _, _ => None
                    end.
Proof.
  intros Hlen Hw Eout i j.
  destruct m as [|r0 m'].
  { simpl in Eout. inversion Eout. unfold entry.
    destruct i; reflexivity. }
  set (m := r0 :: m') in *.
  assert (Hne : m <> []) by discriminate.
  assert (Hlt : length m = length (transpose m)).
  { rewrite (transpose_length m N Hne Hw). exact Hlen. }
  pose proof (zipWithM_nth_error _ _ _ _ i Hlt Eout) as Ei.
  pose proof (zipWithM_length _ _ _ _ Hlt Eout) as Hlo.
  rewrite (transpose_nth_error m N i Hne Hw) in Ei.
  unfold entry at 1 2. rewrite Ei.
  destruct (nth_error m i) as [r|] eqn:Er; [|reflexivity].
  assert (Hi : i < N).
  { rewrite <- Hlen. apply nth_error_Some. congruence. }
  rewrite (proj2 (Nat.ltb_lt i N) Hi) in *.
  assert (Hi' : forall r', In r' m -> i < length r').
  { intros r' Hr'. rewrite (Hw r' Hr'). exact Hi. }
  assert (Hlc : length r = length (column i m)).
  { rewrite (column_length m i Hi'), Hlen. apply Hw.
    eapply nth_error_In. exact Er. }
  destruct (zipWithM g r (column i m)) as [o|] eqn:Eo.
  - rewrite (zipWithM_nth_error g r (column i m) o j Hlc Eo).
    rewrite (column_nth_error m i j Hi'). reflexivity.
  - (* every row of [out] exists, so this row cannot have raised *)
    exfalso.
    assert (Hex : nth_error out i <> None).
    { apply nth_error_Some. rewrite Hlo, Hlen. exact Hi. }
    apply Hex. exact Ei.
Qed.

End TransposeFacts.

(** ** Shapes *)

Section TensorFacts.
Import Torch.
Context {R : Type} `{Scalar R}.

Lemma has_shape_0 (s : list nat) (x : tensor R 0) :
  has_shape 0 s x = true <-> s = [].
Proof.
  destruct s; simpl; split; congruence.
Qed.

Lemma has_shape_S (n d : nat) (s : list nat) (t : tensor R (S n)) :
  has_shape (S n) (d :: s) t = true <->
  length s = n /\ length (t : list (tensor R n)) = d /\
  (forall x, In x (t : list (tensor R n)) -> has_shape n s x = true).
Proof.
  change (has_shape (S n) (d :: s) t)
    with ((length s =? n) && (length (t : list (tensor R n)) =? d)
          && forallb (has_shape n s) t).
  rewrite !andb_true_iff, !Nat.eqb_eq, forallb_forall. tauto.
Qed.

(** The equations of the operations, one per rank. *)
Lemma linear_0 c w b (x : tensor R 1) :
  linear 0 c w b x
  = if length (x : list (tensor R 0)) =? c then Some (affine w b x)
    else None.
Proof. reflexivity. Qed.

Lemma linear_S n c w b (t : list (tensor R (S n))) :
  linear (S n) c w b t = mapM (linear n c w b) t.
Proof. reflexivity. Qed.

Lemma tadd_0 (a b : R) : tadd 0 a b = Some (a + b)%R.
Proof. reflexivity. Qed.

Lemma tadd_S n (a b : list (tensor R n)) :
  tadd (S n) a b
  = if length a =? length b then zipWithM (tadd n) a b
    else match a, b with
         | [a0], _ => mapM (tadd n a0) b
         | _, [b0] => mapM (fun x => tadd n x b0) a
         | _, _ => None
         end.
Proof. reflexivity. Qed.

Lemma tadd_S_same n (a b : list (tensor R n)) :
  length a = length b -> tadd (S n) a b = zipWithM (tadd n) a b.
Proof.
  intros E. rewrite tadd_S, E, Nat.eqb_refl. reflexivity.
Qed.

Lemma transpose_m2_m3_0 (t : list (list (tensor R 1))) :
  transpose_m2_m3 0 t = transpose t.
Proof. reflexivity. Qed.

Lemma transpose_m2_m3_S n (t : list (tensor R (S (S (S n))))) :
  transpose_m2_m3 (S n) t = map (transpose_m2_m3 n) t.
Proof. reflexivity. Qed.

Lemma has_shape_rank (n : nat) (s : list nat) (t : tensor R n) :
  has_shape n s t = true -> length s = n.
Proof.
  destruct n as [|n].
  - intros E. apply has_shape_0 in E. subst. reflexivity.
  - destruct s as [|d s]; [discriminate|].
    intros E. apply has_shape_S in E. simpl. lia.
Qed.

(** From a shape [bs ++ tail] of a tensor: the number of entries of
    [bs], then a case analysis on [bs] that leaves the possible case. *)
Ltac batch_sizes Ht bs b :=
  let Hbs := fresh "Hbs" in
  pose proof (has_shape_rank _ _ _ Ht) as Hbs;
  rewrite length_app in Hbs; simpl in Hbs;
  destruct bs as [|b bs]; simpl in Hbs; try lia;
  clear Hbs; simpl app in *.

(** ** [full] *)

Lemma full_shape (n : nat) (s : list nat) (x : R) :
  length s = n -> has_shape n s (full n s x) = true.
Proof.
  revert s. induction n as [|n IH]; intros [|d s] Hs; simpl in *;
    try discriminate; [reflexivity|].
  injection Hs as Hs.
  rewrite repeat_length, !Nat.eqb_refl, Hs, Nat.eqb_refl. simpl.
  apply forallb_forall. intros y Hy. apply repeat_spec in Hy. subst y.
  apply IH. exact Hs.
Qed.

(** ** [linear] *)

Lemma add_bias_length (b : option (list R)) (y : list R) (d : nat) :
  length y = d ->
  match b with None => True | Some b' => length b' = d end ->
  length (add_bias b y) = d.
Proof.
  intros Hy Hb. destruct b as [b'|]; simpl; [|exact Hy].
  rewrite zipWith_length. lia.
Qed.

Lemma affine_length (l : Linear.t R) (x : list R) :
  Linear.wf l = true ->
  length (affine (Linear.weight l) (Linear.bias l) x)
  = Linear.out_features l.
Proof.
  unfold Linear.wf, affine. rewrite !andb_true_iff.
  intros [[Hw _] Hb]. apply Nat.eqb_eq in Hw.
  apply add_bias_length.
  - rewrite length_map. exact Hw.
  - destruct (Linear.bias l); [apply Nat.eqb_eq; exact Hb | exact I].
Qed.

(** On an input whose last axis has [in_features] entries, [linear]
    returns, and the last axis of the result has [out_features]. *)
Lemma linear_shape (l : Linear.t R) (n : nat) (bs : list nat)
    (t : tensor R (S n)) :
  Linear.wf l = true ->
  has_shape (S n) (bs ++ [Linear.in_features l]) t = true ->
  exists out,
    linear n (Linear.in_features l) (Linear.weight l) (Linear.bias l) t
    = Some out
    /\ has_shape (S n) (bs ++ [Linear.out_features l]) out = true.
Proof.
  intros Hl. revert bs t. induction n as [|n IH]; intros bs t Ht.
  - batch_sizes Ht bs b.
    apply has_shape_S in Ht. destruct Ht as (_ & Hlen & _).
    rewrite linear_0, Hlen, Nat.eqb_refl.
    eexists. split; [reflexivity|].
    apply has_shape_S. split; [reflexivity | split].
    + apply affine_length. exact Hl.
    + intros x _. reflexivity.
  - batch_sizes Ht bs b.
    apply has_shape_S in Ht. destruct Ht as (Hs & Hlen & Hin).
    rewrite linear_S.
    destruct (mapM_In (fun y => has_shape (S n)
                          (bs ++ [Linear.out_features l]) y = true)
                (linear n (Linear.in_features l) (Linear.weight l)
                   (Linear.bias l)) t) as (out & Eo & Hlo & Ho).
    { intros x Hx. apply IH. apply Hin. exact Hx. }
    exists out. split; [exact Eo|].
    apply has_shape_S. split; [|split].
    + rewrite length_app in *. simpl in *. lia.
    + exact (eq_trans Hlo Hlen).
    + exact Ho.
Qed.

(** ** [tadd] on operands of one shape *)

Lemma tadd_shape (n : nat) (s : list nat) (a b : tensor R n) :
  has_shape n s a = true -> has_shape n s b = true ->
  exists o, tadd n a b = Some o /\ has_shape n s o = true.
Proof.
  revert s a b. induction n as [|n IH]; intros s a b Ha Hb.
  - exists (a + b)%R. split; [reflexivity|].
    apply has_shape_0. apply has_shape_0 in Ha. exact Ha.
  - destruct s as [|d s]; [discriminate|].
    apply has_shape_S in Ha. destruct Ha as (Hs & Hla & Ha).
    apply has_shape_S in Hb. destruct Hb as (_ & Hlb & Hb).
    rewrite tadd_S_same by congruence.
    destruct (zipWithM_In (fun y => has_shape n s y = true)
                (tadd n) a b) as (o & Eo & Hlo & Ho).
    { congruence. }
    { intros x y Hx Hy. apply IH; [apply Ha | apply Hb]; assumption. }
    exists o. split; [exact Eo|].
    apply has_shape_S. split; [exact Hs | split; [congruence | exact Ho]].
Qed.

(** ** [transpose_m2_m3] keeps the shape of a tensor with two equal
       token axes *)

Lemma transpose_shape_3 (N c : nat) (l : tensor R 3) :
  has_shape 3 [N; N; c] l = true ->
  has_shape 3 [N; N; c] (transpose_m2_m3 0 l) = true.
Proof.
  intros Hl. rewrite transpose_m2_m3_0.
  destruct l as [|r0 l']; [exact Hl|].
  set (m := r0 :: l') in *.
  apply has_shape_S in Hl. destruct Hl as (_ & Hlen & Hrows).
  assert (Hw : forall r, In r m -> length r = N).
  { intros r Hr. apply Hrows in Hr. apply has_shape_S in Hr. tauto. }
  apply has_shape_S. split; [reflexivity | split].
  - apply transpose_length; [discriminate | exact Hw].
  - intros x Hx. apply (transpose_In m N x Hw) in Hx.
    destruct Hx as (j & Hj & ->).
    assert (Hj' : forall r, In r m -> j < length r).
    { intros r Hr. rewrite (Hw r Hr). exact Hj. }
    apply has_shape_S. split; [reflexivity | split].
    + exact (eq_trans (column_length m j Hj') Hlen).
    + intros y Hy. apply column_In in Hy. destruct Hy as (r & Hr & Hy).
      apply Hrows in Hr. apply has_shape_S in Hr.
      destruct Hr as (_ & _ & Hr). apply Hr. exact Hy.
Qed.

Lemma transpose_shape (n : nat) (bs : list nat) (N c : nat)
    (l : tensor R (S (S (S n)))) :
  has_shape (S (S (S n))) (bs ++ [N; N; c]) l = true ->
  has_shape (S (S (S n))) (bs ++ [N; N; c]) (transpose_m2_m3 n l) = true.
Proof.
  revert bs l. induction n as [|n IH]; intros bs l Hl.
  - batch_sizes Hl bs b. apply transpose_shape_3. exact Hl.
  - batch_sizes Hl bs b. rewrite transpose_m2_m3_S.
    apply has_shape_S in Hl. destruct Hl as (Hs & Hlen & Hin).
    apply has_shape_S. split; [exact Hs | split].
    + rewrite length_map. exact Hlen.
    + intros x Hx. apply in_map_iff in Hx. destruct Hx as (y & <- & Hy).
      apply IH. apply Hin. exact Hy.
Qed.

(** ** The entries of [l + l.transpose(-2, -3)] *)

Lemma pair_item_tadd_transpose (N c : nat) (l out : tensor R 3) :
  has_shape 3 [N; N; c] l = true ->
  tadd 3 l (transpose_m2_m3 0 l) = Some out ->
  forall i j,
    pair_item out i j = pair_sum (pair_item l i j) (pair_item l j i).
Proof.
  intros Hl Eout i j.
  apply has_shape_S in Hl. destruct Hl as (_ & Hlen & Hrows).
  assert (Hw : forall r, In r (l : list (list (tensor R 1))) ->
                         length r = N).
  { intros r Hr. apply Hrows in Hr. apply has_shape_S in Hr. tauto. }
  assert (Hlt : length (l : list (list (tensor R 1)))
                = length (transpose l)).
  { destruct l as [|r0 l']; [reflexivity|].
    rewrite (transpose_length (r0 :: l') N); [exact Hlen | discriminate|].
    exact Hw. }
  apply (zip_transpose_entry (tadd 1) l N out Hlen Hw).
  transitivity (zipWithM (tadd 2) l (transpose l));
    [|rewrite <- (tadd_S_same 2 l (transpose l) Hlt); exact Eout].
  apply zipWithM_ext. intros x y Hx Hy.
  symmetry. apply (tadd_S_same 1 x y).
  rewrite (Hw x Hx).
  apply (transpose_In l N y Hw) in Hy. destruct Hy as (k & Hk & ->).
  rewrite column_length; [symmetry; exact Hlen|].
  intros r Hr. rewrite (Hw r Hr). exact Hk.
Qed.

Lemma item_tadd_transpose (n : nat) (bs : list nat) (N c : nat)
    (l out : tensor R (S (S (S n)))) :
  has_shape (S (S (S n))) (bs ++ [N; N; c]) l = true ->
  tadd (S (S (S n))) l (transpose_m2_m3 n l) = Some out ->
  forall idx i j,
    item n out idx i j = pair_sum (item n l idx i j) (item n l idx j i).
Proof.
  revert bs l out. induction n as [|n IH]; intros bs l out Hl Eout idx i j.
  - batch_sizes Hl bs b. unfold item.
    destruct idx as [|k idx]; [|reflexivity].
    apply (pair_item_tadd_transpose N c l out Hl Eout).
  - batch_sizes Hl bs b. rewrite transpose_m2_m3_S in Eout.
    apply has_shape_S in Hl. destruct Hl as (Hs & Hlen & Hin).
    assert (Hlm : @length (tensor R (S (S (S n)))) l
                  = length (map (transpose_m2_m3 n) l))
      by (rewrite length_map; reflexivity).
    rewrite tadd_S_same in Eout by exact Hlm.
    pose proof (@zipWithM_length (tensor R (S (S (S n))))
                  (tensor R (S (S (S n)))) (tensor R (S (S (S n))))
                  _ _ _ _ Hlm Eout) as Hlo.
    unfold item.
    destruct idx as [|k' idx]; [reflexivity|].
    change (batch_item (S n) (k' :: idx) out)
      with (match @nth_error (tensor R (S (S (S n)))) out k' with
            | Some t' => batch_item n idx t'
            | None => None
            end).
    change (batch_item (S n) (k' :: idx) l)
      with (match @nth_error (tensor R (S (S (S n)))) l k' with
            | Some t' => batch_item n idx t'
            | None => None
            end).
    pose proof (@zipWithM_nth_error (tensor R (S (S (S n))))
                  (tensor R (S (S (S n)))) (tensor R (S (S (S n))))
                  _ _ _ _ k' Hlm Eout) as Ek.
    rewrite nth_error_map in Ek.
    destruct (@nth_error (tensor R (S (S (S n)))) l k') as [x|] eqn:Ex.
    + simpl option_map in Ek.
      destruct (@nth_error (tensor R (S (S (S n)))) out k')
        as [o|] eqn:Eo.
      * apply (IH bs x o); [|symmetry; exact Ek].
        apply Hin. eapply nth_error_In. exact Ex.
      * exfalso. apply nth_error_None in Eo.
        assert (Hk : k' < @length (tensor R (S (S (S n)))) l).
        { apply nth_error_Some. congruence. }
        lia.
    + simpl option_map in Ek. rewrite Ek. reflexivity.
Qed.

(** Indices within the sizes reach a feature vector. *)
Lemma item_in_range (n : nat) (bs : list nat) (N c : nat)
    (t : tensor R (S (S (S n)))) (idx : list nat) (i j : nat) :
  has_shape (S (S (S n))) (bs ++ [N; N; c]) t = true ->
  Forall2 lt idx bs -> i < N -> j < N ->
  exists v, item n t idx i j = Some v.
Proof.
  revert bs t idx. induction n as [|n IH]; intros bs t idx Ht Hidx Hi Hj.
  - batch_sizes Ht bs b. inversion Hidx; subst.
    apply has_shape_S in Ht. destruct Ht as (_ & Hlen & Hrows).
    apply (entry_in_range (t : list (list (tensor R 1))) N N i j Hlen);
      try assumption.
    intros r Hr. apply Hrows in Hr. apply has_shape_S in Hr. tauto.
  - batch_sizes Ht bs b. inversion Hidx as [|k b' idx' bs' Hk Hidx']; subst.
    apply has_shape_S in Ht. destruct Ht as (_ & Hlen & Hin).
    unfold item.
    change (batch_item (S n) (k :: idx') t)
      with (match @nth_error (tensor R (S (S (S n)))) t k with
            | Some t' => batch_item n idx' t'
            | None => None
            end).
    destruct (@nth_error (tensor R (S (S (S n)))) t k) as [t'|] eqn:Et.
    + apply (IH bs t' idx'); try assumption.
      apply Hin. eapply nth_error_In. exact Et.
    + apply nth_error_None in Et. lia.
Qed.

(** ** Algebra of [tadd] *)

Section Commutative.
Hypothesis add_comm : forall a b : R, (a + b)%R = (b + a)%R.

Lemma tadd_comm (n : nat) (a b : tensor R n) : tadd n a b = tadd n b a.
Proof.
  revert a b. induction n as [|n IH]; intros a b.
  - rewrite !tadd_0. f_equal. apply add_comm.
  - rewrite !tadd_S.
    rewrite (Nat.eqb_sym (@length (tensor R n) b) (@length (tensor R n) a)).
    destruct (@length (tensor R n) a =? @length (tensor R n) b) eqn:E.
    + apply zipWithM_comm. exact IH.
    + destruct a as [|a0 [|a1 a']]; destruct b as [|b0 [|b1 b']];
        simpl in E; try discriminate; try reflexivity;
        apply mapM_ext; intros x; apply IH.
Qed.

End Commutative.

Lemma tadd_self (u : tensor R 1) :
  tadd 1 u u = Some (map (fun x => (x + x)%R) u).
Proof.
  rewrite tadd_S_same by reflexivity.
  induction u as [|x u IH]; [reflexivity|].
  cbn [zipWithM map]. rewrite tadd_0, IH. reflexivity.
Qed.

(** ** Constant tensors through the operations *)

Lemma tadd_full (n : nat) (s : list nat) (x y : R) :
  tadd n (full n s x) (full n s y) = Some (full n s (x + y)%R).
Proof.
  revert s. induction n as [|n IH]; intros s; [reflexivity|].
  rewrite tadd_S_same.
  - destruct s as [|d s]; [reflexivity|].
    apply zipWithM_repeat. apply IH.
  - destruct s as [|d s]; [reflexivity|].
    simpl. rewrite !repeat_length. reflexivity.
Qed.

Lemma transpose_repeat (X : Type) (v : X) (N : nat) :
  transpose (repeat (repeat v N) N) = repeat (repeat v N) N.
Proof.
  destruct N as [|N]; [reflexivity|].
  set (m := repeat (repeat v (S N)) (S N)).
  change (transpose m)
    with (map (fun j => column j m) (seq 0 (length (repeat v (S N))))).
  rewrite repeat_length.
  rewrite (map_const (fun j => column j m) (seq 0 (S N)) (repeat v (S N))).
  - rewrite length_seq. reflexivity.
  - intros j Hj. apply in_seq in Hj. apply column_repeat.
    rewrite nth_error_repeat by lia. reflexivity.
Qed.

Lemma transpose_full (n : nat) (bs : list nat) (N c : nat) (x : R) :
  length bs = n ->
  transpose_m2_m3 n (full (S (S (S n))) (bs ++ [N; N; c]) x)
  = full (S (S (S n))) (bs ++ [N; N; c]) x.
Proof.
  revert bs. induction n as [|n IH]; intros [|b bs] Hbs;
    try discriminate.
  - apply (transpose_repeat (list R) (repeat x c) N).
  - injection Hbs as Hbs. rewrite transpose_m2_m3_S.
    change (full (S (S (S (S n)))) ((b :: bs) ++ [N; N; c]) x)
      with (repeat (full (S (S (S n))) (bs ++ [N; N; c]) x) b).
    rewrite map_repeat, IH by exact Hbs. reflexivity.
Qed.

Section ZeroWeights.
Hypothesis mul_0_r : forall a : R, (a * zero)%R = zero.
Hypothesis add_0_0 : (zero + zero)%R = (zero : R).

Lemma dot_zeros (x : list R) (c : nat) : dot x (repeat zero c) = zero.
Proof.
  unfold dot. revert c. induction x as [|a x IH]; intros [|c]; simpl;
    try reflexivity.
  rewrite IH, mul_0_r. exact add_0_0.
Qed.

End ZeroWeights.

End TensorFacts.

(* ================================================================== *)
(** ** The heads *)

Section HeadFacts.
Import Torch.
Context {R : Type} `{Scalar R}.

Lemma twice_stateless (S A : Type) (m : M S A) (s s' : S) (a : A) :
  stateless m -> m s = Some (a, s') -> twice m s = Some ((a, a), s).
Proof.
  intros Hm E. pose proof (Hm s a s' E) as ->.
  unfold twice, bind, ret. rewrite E, E. reflexivity.
Qed.

(** [Linear.forward]: the value of [F.linear], on an unchanged layer. *)
Lemma Linear_forward_eq (n : nat) (x : tensor R (S n)) (l : Linear.t R) :
  Linear.forward n x l
  = match linear n (Linear.in_features l) (Linear.weight l)
            (Linear.bias l) x with
    | Some y => Some (y, l)
    | None => None
    end.
Proof. reflexivity. Qed.

Lemma Linear_forward_stateless (n : nat) (x : tensor R (S n)) :
  stateless (Linear.forward n x).
Proof.
  intros l y l' E. rewrite Linear_forward_eq in E.
  destruct (linear _ _ _ _ _); inversion E. reflexivity.
Qed.

(** [DistogramHead.forward]: the layer, then the sum with the
    transposed, on an unchanged head. *)
Lemma DistogramHead_forward_eq (n : nat) (z : tensor R (S (S (S n))))
    (h : DistogramHead.t R) :
  DistogramHead.forward n z h
  = match linear (S (S n))
            (Linear.in_features (DistogramHead.linear h))
            (Linear.weight (DistogramHead.linear h))
            (Linear.bias (DistogramHead.linear h)) z with
    | Some logits =>
        match tadd (S (S (S n))) logits (transpose_m2_m3 n logits) with
        | Some out => Some (out, h)
        | None => None
        end
    | None => None
    end.
Proof.
  unfold DistogramHead.forward, bind, call. rewrite Linear_forward_eq.
  destruct h as [c nb l]. cbn [DistogramHead.linear].
  destruct (linear _ _ _ _ _) as [logits|]; [|reflexivity].
  unfold lift, ret, DistogramHead.set_linear.
  destruct (tadd _ _ _); reflexivity.
Qed.

Lemma DistogramHead_forward_stateless (n : nat)
    (z : tensor R (S (S (S n)))) :
  stateless (DistogramHead.forward n z).
Proof.
  intros h out h' E. rewrite DistogramHead_forward_eq in E.
  destruct (linear _ _ _ _ _); [|discriminate].
  destruct (tadd _ _ _); inversion E. reflexivity.
Qed.

(** On an input of shape [(..., N, N, c_z)] the head returns: the layer
    gives logits of shape [(..., N, N, no_bins)], and so is their sum
    with the transposed. *)
Lemma DistogramHead_forward_returns (h : DistogramHead.t R) (n : nat)
    (bs : list nat) (N : nat) (z : tensor R (S (S (S n)))) :
  DistogramHead.wf h = true ->
  has_shape (S (S (S n))) (bs ++ [N; N; DistogramHead.c_z h]) z = true ->
  exists logits out,
    Linear.forward (S (S n)) z (DistogramHead.linear h)
    = Some (logits, DistogramHead.linear h)
    /\ has_shape (S (S (S n))) (bs ++ [N; N; DistogramHead.no_bins h])
         logits = true
    /\ tadd (S (S (S n))) logits (transpose_m2_m3 n logits) = Some out
    /\ has_shape (S (S (S n))) (bs ++ [N; N; DistogramHead.no_bins h])
         out = true
    /\ DistogramHead.forward n z h = Some (out, h).
Proof.
  unfold DistogramHead.wf. rewrite !andb_true_iff, !Nat.eqb_eq.
  intros [[Hin Hout] Hl] Hz.
  rewrite <- Hin in Hz. rewrite <- Hout.
  replace (bs ++ [N; N; Linear.in_features (DistogramHead.linear h)])
    with ((bs ++ [N; N]) ++ [Linear.in_features (DistogramHead.linear h)])
    in Hz by (rewrite <- app_assoc; reflexivity).
  destruct (linear_shape _ _ _ z Hl Hz) as (logits & El & Hs).
  rewrite <- app_assoc in Hs. simpl app in Hs.
  destruct (tadd_shape _ _ logits (transpose_m2_m3 n logits) Hs
              (transpose_shape _ _ _ _ _ Hs)) as (out & Eo & Ho).
  exists logits, out.
  rewrite DistogramHead_forward_eq, Linear_forward_eq, El, Eo.
  repeat split; assumption.
Qed.

Lemma Linear_init_zeros_wf (D : Linear.defaults R) (c nb : nat) :
  Linear.wf (Linear.init D c nb "zeros") = true.
Proof.
  unfold Linear.wf. simpl. rewrite repeat_length, Nat.eqb_refl. simpl.
  rewrite andb_true_iff. split.
  - apply forallb_forall. intros r Hr. apply repeat_spec in Hr. subst r.
    rewrite repeat_length. apply Nat.eqb_refl.
  - destruct (Linear.use_bias D); [|reflexivity].
    rewrite repeat_length. apply Nat.eqb_refl.
Qed.

Lemma DistogramHead_init_wf (D : Linear.defaults R) (c_z no_bins : nat) :
  DistogramHead.wf (DistogramHead.init D c_z no_bins) = true.
Proof.
  unfold DistogramHead.wf.
  change (DistogramHead.linear (DistogramHead.init D c_z no_bins))
    with (Linear.init D c_z no_bins "zeros").
  rewrite Linear_init_zeros_wf.
  simpl. rewrite !Nat.eqb_refl. reflexivity.
Qed.

(** [nn.Sequential]: the layers are left as they were, and on tensors of
    rank two or more the leading axis keeps its size. *)
Lemma Sequential_run_stateless (n : nat) (layers : list (Linear.t R)) :
  forall x r layers',
    Sequential.run n layers x = Some (r, layers') -> layers' = layers.
Proof.
  induction layers as [|l layers IH]; intros x r layers' E; simpl in E.
  - inversion E. reflexivity.
  - destruct (Linear.forward n x l) as [[y l']|] eqn:El; [|discriminate].
    apply Linear_forward_stateless in El. subst l'.
    destruct (Sequential.run n layers y) as [[r' ls]|] eqn:Er;
      [|discriminate].
    apply IH in Er. inversion E. subst. reflexivity.
Qed.

Lemma Sequential_run_length (n : nat) (layers : list (Linear.t R)) :
  forall (x r : tensor R (S (S n))) layers',
    Sequential.run (S n) layers x = Some (r, layers') ->
    @length (tensor R (S n)) r = @length (tensor R (S n)) x.
Proof.
  induction layers as [|l layers IH]; intros x r layers' E; simpl in E.
  - inversion E. reflexivity.
  - rewrite Linear_forward_eq, linear_S in E.
    destruct (mapM (linear n _ _ _) x) as [y|] eqn:Ey; [|discriminate].
    apply mapM_length in Ey.
    destruct (Sequential.run (S n) layers y) as [[r' ls]|] eqn:Er;
      [|discriminate].
    apply IH in Er. inversion E. subst. congruence.
Qed.

(** The two-stage classifier: the first layer, then the second. *)
Lemma Sequential_run_two (n : nat) (l1 l2 : Linear.t R)
    (x : tensor R (S n)) :
  Sequential.run n [l1; l2] x
  = match linear n (Linear.in_features l1) (Linear.weight l1)
            (Linear.bias l1) x with
    | Some y =>
        match linear n (Linear.in_features l2) (Linear.weight l2)
                (Linear.bias l2) y with
        | Some r => Some (r, [l1; l2])
        | None => None
        end
    | None => None
    end.
Proof.
  cbn [Sequential.run]. rewrite Linear_forward_eq.
  destruct (linear n _ _ _ x) as [y|]; [|reflexivity].
  rewrite Linear_forward_eq.
  destruct (linear n _ _ _ y); reflexivity.
Qed.

(** [BondTypeHead.forward]: the classifier on [z.unsqueeze(0)], on an
    unchanged head. *)
Lemma BondTypeHead_forward_eq (n : nat) (z : tensor R n)
    (h : BondTypeHead.t R) :
  BondTypeHead.forward n z h
  = match Sequential.run n (BondTypeHead.classifier h) (unsqueeze0 z) with
    | Some (logits, _) => Some (logits, h)
    | None => None
    end.
Proof.
  unfold BondTypeHead.forward, bind, call, Sequential.forward.
  destruct (Sequential.run n (BondTypeHead.classifier h) (unsqueeze0 z))
    as [[logits ls]|] eqn:E; [|reflexivity].
  apply Sequential_run_stateless in E. subst ls.
  destruct h. reflexivity.
Qed.

Lemma BondTypeHead_forward_stateless (n : nat) (z : tensor R n) :
  stateless (BondTypeHead.forward n z).
Proof.
  intros h out h' E. rewrite BondTypeHead_forward_eq in E.
  destruct (Sequential.run _ _ _) as [[logits ls]|]; inversion E.
  reflexivity.
Qed.

(** On an input of shape [s ++ [c_in]] the head returns logits of shape
    [1 :: s ++ [no_bond_types]]. *)
Lemma BondTypeHead_forward_returns (h : BondTypeHead.t R) (n : nat)
    (s : list nat) (z : tensor R (S n)) :
  BondTypeHead.wf h = true ->
  has_shape (S n) (s ++ [BondTypeHead.c_in h]) z = true ->
  exists out,
    BondTypeHead.forward (S n) z h = Some (out, h)
    /\ has_shape (S (S n)) (1 :: s ++ [BondTypeHead.no_bond_types h]) out
       = true.
Proof.
  unfold BondTypeHead.wf. intros Hh Hz.
  rewrite BondTypeHead_forward_eq.
  destruct (BondTypeHead.classifier h) as [|l1 [|l2 [|l3 ls]]];
    try discriminate.
  rewrite !andb_true_iff, !Nat.eqb_eq in Hh.
  destruct Hh as [[[[[Hi1 Ho1] Hi2] Ho2] Hw1] Hw2].
  rewrite Sequential_run_two.
  assert (Hx : has_shape (S (S n)) ((1 :: s) ++ [Linear.in_features l1])
                 (unsqueeze0 z) = true).
  { rewrite Hi1. apply has_shape_S. split; [|split].
    - apply has_shape_rank in Hz. exact Hz.
    - reflexivity.
    - intros x [<-|[]]. exact Hz. }
  destruct (linear_shape l1 _ _ (unsqueeze0 z) Hw1 Hx) as (y & Ey & Hy).
  rewrite Ey. rewrite Ho1, <- Hi2 in Hy.
  destruct (linear_shape l2 _ _ y Hw2 Hy) as (out & Eo & Hout).
  rewrite Eo. exists out. split; [reflexivity|].
  rewrite Ho2 in Hout. exact Hout.
Qed.

(** [PairwiseHead.forward], step by step. *)
Lemma PairwiseHead_forward_eq (n : nat) (e : PairFormerOutput R n)
    (h : PairwiseHead.t R) :
  PairwiseHead.forward n e h
  = match DistogramHead.forward n (z e) (PairwiseHead.distogram_head h)
    with
    | Some (d, _) =>
        if PairwiseHead.bond_reconstruction h
        then match PairwiseHead.bond_type_head h with
             | Some b =>
                 match BondTypeHead.forward (S (S (S n))) (z e) b with
                 | Some (logits, _) =>
                     Some (mkPairwiseOutput (pack (S (S (S n))) d)
                             (Some (pack (S (S (S (S n)))) logits)), h)
                 | None => None
                 end
             | None => None
             end
        else Some (mkPairwiseOutput (pack (S (S (S n))) d) None, h)
    | None => None
    end.
Proof.
  unfold PairwiseHead.forward, bind, call.
  destruct (DistogramHead.forward n (z e) (PairwiseHead.distogram_head h))
    as [[d dh]|] eqn:Ed; [|reflexivity].
  apply DistogramHead_forward_stateless in Ed. subst dh.
  destruct h as [dh flag bh].
  unfold getattr, PairwiseHead.set_distogram_head. simpl.
  destruct flag; [|reflexivity].
  unfold PairwiseHead.call_bond_type_head. simpl.
  destruct bh as [b|]; [|reflexivity].
  destruct (BondTypeHead.forward (S (S (S n))) (z e) b)
    as [[logits b']|] eqn:Eb; [|reflexivity].
  apply BondTypeHead_forward_stateless in Eb. subst b'. reflexivity.
Qed.

Lemma PairwiseHead_forward_stateless (n : nat)
    (e : PairFormerOutput R n) :
  stateless (PairwiseHead.forward n e).
Proof.
  intros h out h' E. rewrite PairwiseHead_forward_eq in E.
  destruct (DistogramHead.forward _ _ _) as [[d dh]|]; [|discriminate].
  destruct (PairwiseHead.bond_reconstruction h).
  - destruct (PairwiseHead.bond_type_head h); [|discriminate].
    destruct (BondTypeHead.forward _ _ _) as [[logits b']|];
      inversion E. reflexivity.
  - inversion E. reflexivity.
Qed.

(** A head with a bond-type sub-module, on an input of shape
    [(..., N, N, c_z)]: both fields are present, with their shapes. *)
Lemma PairwiseHead_forward_returns_both (h : PairwiseHead.t R)
    (bh : BondTypeHead.t R) (n : nat) (bs : list nat) (N : nat)
    (e : PairFormerOutput R n) :
  PairwiseHead.wf h = true ->
  PairwiseHead.bond_type_head h = Some bh ->
  has_shape (S (S (S n)))
    (bs ++ [N; N; DistogramHead.c_z (PairwiseHead.distogram_head h)])
    (z e) = true ->
  exists d b,
    PairwiseHead.forward n e h
    = Some (mkPairwiseOutput (pack (S (S (S n))) d)
              (Some (pack (S (S (S (S n)))) b)), h)
    /\ has_shape (S (S (S n)))
         (bs ++ [N; N;
                 DistogramHead.no_bins (PairwiseHead.distogram_head h)])
         d = true
    /\ has_shape (S (S (S (S n))))
         (1 :: bs ++ [N; N; BondTypeHead.no_bond_types bh]) b = true.
Proof.
  unfold PairwiseHead.wf. intros Hh Hb Hz. rewrite Hb in Hh.
  rewrite !andb_true_iff, Nat.eqb_eq in Hh.
  destruct Hh as [Hd [[Hflag Hbh] Hc]].
  destruct (DistogramHead_forward_returns _ n bs N (z e) Hd Hz)
    as (logits & d & _ & _ & _ & Hds & Ed).
  assert (Hz' : has_shape (S (S (S n)))
                  ((bs ++ [N; N]) ++ [BondTypeHead.c_in bh]) (z e) = true).
  { rewrite Hc, <- app_assoc. exact Hz. }
  destruct (BondTypeHead_forward_returns bh _ _ (z e) Hbh Hz')
    as (b & Eb & Hbs).
  exists d, b. rewrite PairwiseHead_forward_eq, Ed, Hflag, Hb, Eb.
  split; [reflexivity|]. split; [exact Hds|].
  rewrite <- app_assoc in Hbs. exact Hbs.
Qed.

(** A head without bond-type sub-module, on an input of shape
    [(..., N, N, c_z)]: the distogram alone. *)
Lemma PairwiseHead_forward_returns_distogram (h : PairwiseHead.t R)
    (n : nat) (bs : list nat) (N : nat) (e : PairFormerOutput R n) :
  PairwiseHead.wf h = true ->
  PairwiseHead.bond_type_head h = None ->
  has_shape (S (S (S n)))
    (bs ++ [N; N; DistogramHead.c_z (PairwiseHead.distogram_head h)])
    (z e) = true ->
  exists d,
    PairwiseHead.forward n e h
    = Some (mkPairwiseOutput (pack (S (S (S n))) d) None, h)
    /\ has_shape (S (S (S n)))
         (bs ++ [N; N;
                 DistogramHead.no_bins (PairwiseHead.distogram_head h)])
         d = true.
Proof.
  unfold PairwiseHead.wf. intros Hh Hb Hz. rewrite Hb in Hh.
  rewrite andb_true_iff, negb_true_iff in Hh. destruct Hh as [Hd Hflag].
  destruct (DistogramHead_forward_returns _ n bs N (z e) Hd Hz)
    as (logits & d & _ & _ & _ & Hds & Ed).
  exists d. rewrite PairwiseHead_forward_eq, Ed, Hflag.
  split; [reflexivity | exact Hds].
Qed.

End HeadFacts.

(* ================================================================== *)
(** * The distogram head *)

Section DistogramHeadProperties.
Import Torch.
Context {R : Type} `{Scalar R}.

(** C1.  Symmetry: on every input of shape [(..., N, N, c_z)] and for
    every value of the parameters, [DistogramHead.forward] returns, and
    its output has the same feature vector at [(..., i, j)] and at
    [(..., j, i)] for every pair of token indices, whether or not the
    input is symmetric; within the sizes, that vector exists.  Addition
    of scalars is assumed commutative. *)
Theorem DistogramHead_forward_symmetric
    (add_comm : forall a b : R, (a + b)%R = (b + a)%R)
    (h : DistogramHead.t R) (n : nat) (bs : list nat) (N : nat)
    (z : tensor R (S (S (S n)))) :
  DistogramHead.wf h = true ->
  has_shape (S (S (S n))) (bs ++ [N; N; DistogramHead.c_z h]) z = true ->
  exists out,
    DistogramHead.forward n z h = Some (out, h)
    /\ (forall idx i j, item n out idx i j = item n out idx j i)
    /\ (forall idx i j,
          Forall2 lt idx bs -> i < N -> j < N ->
          exists v, item n out idx i j = Some v
                    /\ item n out idx j i = Some v).
Proof.
  intros Hh Hz.
  destruct (DistogramHead_forward_returns h n bs N z Hh Hz)
    as (logits & out & _ & Hl & Eo & Ho & Ef).
  assert (Hsym : forall idx i j, item n out idx i j = item n out idx j i).
  { intros idx i j.
    rewrite !(item_tadd_transpose n bs N _ logits out Hl Eo).
    unfold pair_sum.
    destruct (item n logits idx i j) as [u|],
             (item n logits idx j i) as [v|]; try reflexivity.
    apply (tadd_comm add_comm). }
  exists out. split; [exact Ef|]. split; [exact Hsym|].
  intros idx i j Hidx Hi Hj.
  destruct (item_in_range n bs N _ out idx i j Ho Hidx Hi Hj) as (v & Ev).
  exists v. split; [exact Ev|]. rewrite <- Hsym. exact Ev.
Qed.

(** C4.  Shape contract: on an input of shape [(..., N, N, c_z)] a head
    configured with [c_z] and [no_bins] returns a tensor of shape
    [(..., N, N, no_bins)]. *)
Theorem DistogramHead_forward_shape
    (h : DistogramHead.t R) (n : nat) (bs : list nat) (N : nat)
    (z : tensor R (S (S (S n)))) :
  DistogramHead.wf h = true ->
  has_shape (S (S (S n))) (bs ++ [N; N; DistogramHead.c_z h]) z = true ->
  exists out,
    DistogramHead.forward n z h = Some (out, h)
    /\ has_shape (S (S (S n))) (bs ++ [N; N; DistogramHead.no_bins h])
         out = true.
Proof.
  intros Hh Hz.
  destruct (DistogramHead_forward_returns h n bs N z Hh Hz)
    as (logits & out & _ & _ & _ & Ho & Ef).
  exists out. split; assumption.
Qed.

(** C8.  On the diagonal the output is twice the projection: for every
    input of shape [(..., N, N, c_z)] and every token index [i], the
    feature vector of the output at [(..., i, i)] is [2 * v] entry by
    entry, [v] the feature vector of [linear(z)] at [(..., i, i)], which
    exists within the sizes.  The diagonal goes through the same sum as
    every other entry.  Assumes [1 * x = x] and
    [(a + b) * x = a * x + b * x]. *)
Theorem DistogramHead_forward_diagonal
    (mul_1_l : forall x : R, (one * x)%R = x)
    (mul_add_distr_r : forall a b x : R,
        ((a + b) * x)%R = (a * x + b * x)%R)
    (h : DistogramHead.t R) (n : nat) (bs : list nat) (N : nat)
    (z : tensor R (S (S (S n)))) :
  DistogramHead.wf h = true ->
  has_shape (S (S (S n))) (bs ++ [N; N; DistogramHead.c_z h]) z = true ->
  exists logits out,
    Linear.forward (S (S n)) z (DistogramHead.linear h)
    = Some (logits, DistogramHead.linear h)
    /\ DistogramHead.forward n z h = Some (out, h)
    /\ (forall idx i,
          item n out idx i i
          = option_map (map (fun x => (two * x)%R))
              (item n logits idx i i))
    /\ (forall idx i,
          Forall2 lt idx bs -> i < N ->
          exists v, item n logits idx i i = Some v
                    /\ item n out idx i i
                       = Some (map (fun x => (two * x)%R) v)).
Proof.
  intros Hh Hz.
  destruct (DistogramHead_forward_returns h n bs N z Hh Hz)
    as (logits & out & El & Hl & Eo & _ & Ef).
  assert (Hdiag : forall idx i,
             item n out idx i i
             = option_map (map (fun x => (two * x)%R))
                 (item n logits idx i i)).
  { intros idx i.
    rewrite (item_tadd_transpose n bs N _ logits out Hl Eo).
    unfold pair_sum.
    destruct (item n logits idx i i) as [u|]; [|reflexivity].
    rewrite tadd_self. simpl. f_equal. apply map_ext. intros x.
    unfold two. rewrite mul_add_distr_r, mul_1_l. reflexivity. }
  exists logits, out. split; [exact El|]. split; [exact Ef|].
  split; [exact Hdiag|].
  intros idx i Hidx Hi.
  destruct (item_in_range n bs N _ logits idx i i Hl Hidx Hi Hi)
    as (v & Ev).
  exists v. split; [exact Ev|]. rewrite Hdiag, Ev. reflexivity.
Qed.

End DistogramHeadProperties.

Lemma DistogramHead_forward_symmetric_witness :
  exists out,
    DistogramHead.forward 1 Example.z_1334 Example.distogram_head
    = Some (out, Example.distogram_head)
    /\ (forall idx i j,
          Torch.item 1 out idx i j = Torch.item 1 out idx j i)
    /\ (forall idx i j,
          Forall2 lt idx [1] -> i < 3 -> j < 3 ->
          exists v, Torch.item 1 out idx i j = Some v
                    /\ Torch.item 1 out idx j i = Some v).
Proof.
  apply (@DistogramHead_forward_symmetric Z Z_Scalar Z.add_comm
           Example.distogram_head 1 [1] 3 Example.z_1334);
    reflexivity.
Defined.

Lemma DistogramHead_forward_shape_witness :
  exists out,
    DistogramHead.forward 1 Example.z_1334 Example.distogram_head
    = Some (out, Example.distogram_head)
    /\ Torch.has_shape 4 [1; 3; 3; 2] out = true.
Proof.
  apply (@DistogramHead_forward_shape Z Z_Scalar Example.distogram_head 1 [1] 3
           Example.z_1334);
    reflexivity.
Defined.

Lemma DistogramHead_forward_diagonal_witness :
  exists logits out,
    Linear.forward 3 Example.z_1334
      (DistogramHead.linear Example.distogram_head)
    = Some (logits, DistogramHead.linear Example.distogram_head)
    /\ DistogramHead.forward 1 Example.z_1334 Example.distogram_head
       = Some (out, Example.distogram_head)
    /\ (forall idx i,
          Torch.item 1 out idx i i
          = option_map (map (fun x => (two * x)%R))
              (Torch.item 1 logits idx i i))
    /\ (forall idx i,
          Forall2 lt idx [1] -> i < 3 ->
          exists v, Torch.item 1 logits idx i i = Some v
                    /\ Torch.item 1 out idx i i
                       = Some (map (fun x => (two * x)%R) v)).
Proof.
  apply (@DistogramHead_forward_diagonal Z Z_Scalar Z.mul_1_l
           Z.mul_add_distr_r Example.distogram_head 1 [1] 3
           Example.z_1334);
    reflexivity.
Defined.

(* ================================================================== *)
(** * The distogram head right after construction *)

Section ZeroInit.
Import Torch.
Context {R : Type} `{Scalar R}.
Hypothesis add_0_0 : (zero + zero)%R = (zero : R).

Lemma entries_all_impl (P Q : R -> Prop) (n : nat) (t : tensor R n) :
  (forall a, P a -> Q a) -> entries_all P n t -> entries_all Q n t.
Proof.
  intros HPQ. revert t. induction n as [|n IH]; intros t Ht.
  - apply HPQ. exact Ht.
  - change (Forall (entries_all Q n) t).
    change (Forall (entries_all P n) t) in Ht.
    eapply Forall_impl; [|exact Ht]. exact IH.
Qed.

(** Against zero weights, a vector of entries that vanish sums to
    zero. *)
Lemma dot_zeros_vanishing (x : list R) (c : nat) :
  Forall vanishes x -> dot x (repeat zero c) = zero.
Proof.
  unfold dot. intros Hx. revert c.
  induction Hx as [|a x Ha Hx IH]; intros [|c]; simpl; try reflexivity.
  rewrite IH. exact Ha.
Qed.

(** The layer that the initializer ["zeros"] leaves, with a zero bias or
    without bias, on a vector of entries that vanish. *)
Lemma affine_zeros_vanishing (D : Linear.defaults R) (c nb : nat)
    (x : list R) :
  Forall vanishes x ->
  affine (Linear.weight (Linear.init D c nb "zeros"))
    (Linear.bias (Linear.init D c nb "zeros")) x
  = repeat zero nb.
Proof.
  intros Hx. unfold affine. simpl.
  rewrite map_repeat, (dot_zeros_vanishing x c Hx).
  destruct (Linear.use_bias D); simpl; [|reflexivity].
  rewrite zipWith_repeat, add_0_0. reflexivity.
Qed.

Lemma linear_zeros_vanishing (D : Linear.defaults R) (c nb n : nat)
    (bs : list nat) (t : tensor R (S n)) :
  has_shape (S n) (bs ++ [c]) t = true ->
  entries_all vanishes (S n) t ->
  linear n c (Linear.weight (Linear.init D c nb "zeros"))
    (Linear.bias (Linear.init D c nb "zeros")) t
  = Some (full (S n) (bs ++ [nb]) zero).
Proof.
  revert bs t. induction n as [|n IH]; intros bs t Ht Hv.
  - pose proof (has_shape_rank _ _ _ Ht) as Hr.
    rewrite length_app in Hr. simpl in Hr.
    destruct bs; [|simpl in Hr; lia]. simpl app in *.
    apply has_shape_S in Ht. destruct Ht as (_ & Hlen & _).
    rewrite linear_0, Hlen, Nat.eqb_refl. f_equal.
    apply affine_zeros_vanishing. exact Hv.
  - pose proof (has_shape_rank _ _ _ Ht) as Hr.
    rewrite length_app in Hr. simpl in Hr.
    destruct bs as [|b bs]; [simpl in Hr; lia|]. simpl app in *.
    apply has_shape_S in Ht. destruct Ht as (_ & Hlen & Hin).
    change (Forall (entries_all vanishes (S n)) t) in Hv.
    rewrite linear_S.
    rewrite (@mapM_const (tensor R (S n)) (tensor R (S n)) _ t
               (full (S n) (bs ++ [nb]) zero)).
    + change (full (S (S n)) (b :: bs ++ [nb]) zero)
        with (repeat (full (S n) (bs ++ [nb]) zero) b).
      rewrite Hlen. reflexivity.
    + intros x Hx. apply IH; [apply Hin; exact Hx|].
      apply (proj1 (Forall_forall _ _) Hv x Hx).
Qed.

(** A freshly built head on an input of shape [(..., N, N, c_z)] whose
    entries vanish: the zero tensor of shape [(..., N, N, no_bins)]. *)
Lemma DistogramHead_init_forward_vanishing
    (D : Linear.defaults R) (c_z no_bins n : nat) (bs : list nat)
    (N : nat) (z : tensor R (S (S (S n)))) :
  has_shape (S (S (S n))) (bs ++ [N; N; c_z]) z = true ->
  entries_all vanishes (S (S (S n))) z ->
  DistogramHead.forward n z (DistogramHead.init D c_z no_bins)
  = Some (full (S (S (S n))) (bs ++ [N; N; no_bins]) zero,
          DistogramHead.init D c_z no_bins).
Proof.
  intros Hz Hv. rewrite DistogramHead_forward_eq.
  assert (Hbs : length bs = n).
  { apply has_shape_rank in Hz. rewrite length_app in Hz. simpl in Hz.
    lia. }
  replace (bs ++ [N; N; c_z]) with ((bs ++ [N; N]) ++ [c_z]) in Hz
    by (rewrite <- app_assoc; reflexivity).
  change (DistogramHead.linear (DistogramHead.init D c_z no_bins))
    with (Linear.init D c_z no_bins "zeros").
  change (Linear.in_features (Linear.init D c_z no_bins "zeros"))
    with c_z.
  rewrite (linear_zeros_vanishing D c_z no_bins _ _ z Hz Hv).
  rewrite <- app_assoc. simpl app.
  rewrite (transpose_full n bs N no_bins zero Hbs).
  rewrite tadd_full, add_0_0. reflexivity.
Qed.

End ZeroInit.

Section ZeroInitFloat.
Import Floats.
Import Torch.

(** A finite float vanishes: [a * 0] is a zero of either sign, and a
    zero plus [+0] is [+0]. *)
Lemma finite_vanishes (a : float) : finite a -> vanishes a.
Proof.
  unfold finite, vanishes. intros Ha.
  change (PrimFloat.add (PrimFloat.mul a 0%float) 0%float = 0%float).
  apply Prim2SF_inj. rewrite add_spec, mul_spec.
  unfold is_finite, is_nan, is_infinity in Ha.
  rewrite !eqb_spec, abs_spec in Ha.
  change (Prim2SF 0) with (S754_zero false).
  change (Prim2SF infinity) with (S754_infinity false) in Ha.
  destruct (Prim2SF a) as [s|s| |s m e].
  - destruct s; reflexivity.
  - destruct s; vm_compute in Ha; discriminate.
  - vm_compute in Ha. discriminate.
  - destruct s; reflexivity.
Qed.

(** The infinities and [nan] do not. *)
Lemma infinite_does_not_vanish :
  ~ vanishes infinity /\ ~ vanishes neg_infinity /\ ~ vanishes nan.
Proof.
  unfold vanishes. repeat split; intros E;
    apply (f_equal classify) in E; vm_compute in E; discriminate.
Qed.


(** C6 (as amended).  The head built with [c_z = 4] and [no_bins = 2],
    on every input of shape [(1, 3, 3, 4)] whose entries are finite
    floats: the tensor of shape [(1, 3, 3, 2)] whose entries are all
    zero. *)
Theorem DistogramHead_scenario_1334
    (D : Linear.defaults float) (z : tensor float 4) :
  has_shape 4 [1; 3; 3; 4] z = true ->
  entries_all finite 4 z ->
  let o := [0; 0]%float in
  let row := [o; o; o] in
  DistogramHead.forward 1 z (DistogramHead.init D 4 2)
  = Some ([[row; row; row]], DistogramHead.init D 4 2)
  /\ has_shape 4 [1; 3; 3; 2] ([[row; row; row]] : tensor float 4) = true.
Proof.
  intros Hz Hf. split; [|reflexivity].
  apply (@DistogramHead_init_forward_vanishing float Float_Scalar
           eq_refl D 4 2 1 [1] 3 z Hz).
  exact (@entries_all_impl float finite vanishes _ z finite_vanishes Hf).
Qed.

End ZeroInitFloat.


Lemma DistogramHead_scenario_1334_witness :
  let o := [PrimFloat.zero; PrimFloat.zero] in
  let row := [o; o; o] in
  DistogramHead.forward 1 ExampleFloat.z_finite
    (DistogramHead.init ExampleFloat.D 4 2)
  = Some ([[row; row; row]], DistogramHead.init ExampleFloat.D 4 2)
  /\ Torch.has_shape 4 [1; 3; 3; 2]
       ([[row; row; row]] : Torch.tensor PrimFloat.float 4) = true.
Proof.
  apply (DistogramHead_scenario_1334 ExampleFloat.D
           ExampleFloat.z_finite).
  - reflexivity.
  - repeat constructor.
Defined.


(** The claim C6 as it was stated, for any input of shape
    [(1, 3, 3, 4)]: on the input with one infinite entry the head built
    with [c_z = 4] and [no_bins = 2] does not return the tensor of
    zeros. *)
Lemma DistogramHead_scenario_1334_counterexample :
  Torch.has_shape 4 [1; 3; 3; 4] ExampleFloat.z_infinite = true
  /\ let o := [PrimFloat.zero; PrimFloat.zero] in
     let row := [o; o; o] in
     DistogramHead.forward 1 ExampleFloat.z_infinite
       (DistogramHead.init ExampleFloat.D 4 2)
     <> Some ([[row; row; row]], DistogramHead.init ExampleFloat.D 4 2).
Proof.
  split; [reflexivity|]. intros o row E.
  apply (f_equal
           (fun r : option (Torch.tensor PrimFloat.float 4
                            * DistogramHead.t PrimFloat.float) =>
              match r with
              | Some (t, _) =>
                  match Torch.item 1 t [0] 2 1 with
                  | Some (x :: _) => PrimFloat.classify x
                  | _ => FloatClass.PZero
                  end
              | None => FloatClass.PZero
              end)) in E.
  vm_compute in E. discriminate E.
Qed.

(* ================================================================== *)
(** * The bond-type head and the pairwise head *)

Section PairwiseHeadProperties.
Import Torch.
Context {R : Type} `{Scalar R}.

(** C3.  Optionality.  Built with [bond_reconstruction = False], the
    head holds no bond-type sub-module, every output it returns has an
    absent bond-type field ([None], not a tensor), and it does return on
    every input of shape [(..., N, N, c_z)].  Built with
    [bond_reconstruction = True], every output it returns has a present
    bond-type field, and it does return on every input of shape
    [(..., N, N, c_z)] once the layers of the bond-type head have the
    configured sizes. *)
Theorem PairwiseHead_bond_type_optional
    (D : Linear.defaults R) (c_z no_bond_types no_bins : nat) :
  let off := PairwiseHead.init D c_z no_bond_types no_bins false in
  let on := PairwiseHead.init D c_z no_bond_types no_bins true in
  (PairwiseHead.bond_type_head off = None
   /\ (forall n e out h',
         PairwiseHead.forward n e off = Some (out, h') ->
         token_bond_type_logits out = None)
   /\ (forall n bs N (e : PairFormerOutput R n),
         has_shape (S (S (S n))) (bs ++ [N; N; c_z]) (z e) = true ->
         exists out,
           PairwiseHead.forward n e off = Some (out, off)
           /\ token_bond_type_logits out = None))
  /\
  ((forall n e out h',
      PairwiseHead.forward n e on = Some (out, h') ->
      exists t, token_bond_type_logits out = Some t)
   /\ (forall n bs N (e : PairFormerOutput R n),
         PairwiseHead.wf on = true ->
         has_shape (S (S (S n))) (bs ++ [N; N; c_z]) (z e) = true ->
         exists out t,
           PairwiseHead.forward n e on = Some (out, on)
           /\ token_bond_type_logits out = Some t)).
Proof.
  intros off on. split; [split; [reflexivity | split] | split].
  - intros n e out h' E. rewrite PairwiseHead_forward_eq in E.
    destruct (DistogramHead.forward _ _ _) as [[d dh]|]; [|discriminate].
    cbn in E. inversion E. reflexivity.
  - intros n bs N e Hz.
    assert (Hoff : PairwiseHead.wf off = true).
    { unfold PairwiseHead.wf, off. cbn.
      change (DistogramHead.wf (DistogramHead.init D c_z no_bins)
              && true = true).
      rewrite DistogramHead_init_wf. reflexivity. }
    destruct (PairwiseHead_forward_returns_distogram off n bs N e Hoff
                eq_refl Hz) as (d & E & _).
    eexists. split; [exact E | reflexivity].
  - intros n e out h' E. rewrite PairwiseHead_forward_eq in E.
    destruct (DistogramHead.forward _ _ _) as [[d dh]|]; [|discriminate].
    cbn [on PairwiseHead.init PairwiseHead.bond_reconstruction
         PairwiseHead.bond_type_head] in E.
    destruct (BondTypeHead.forward _ _ _) as [[logits b']|];
      [|discriminate].
    inversion E. eexists. reflexivity.
  - intros n bs N e Hon Hz.
    destruct (PairwiseHead_forward_returns_both on _ n bs N e Hon
                eq_refl Hz) as (d & b & E & _).
    eexists. eexists. split; [exact E | reflexivity].
Qed.

(** C5.  [BondTypeHead.forward] applies the two-stage classifier to
    [z.unsqueeze(0)]: on an input of shape [(N, N, c_in)] the output has
    shape [(1, N, N, no_bond_types)]; and whatever the parameters, the
    output on an input of rank one or more keeps the inserted leading
    axis of size one. *)
Theorem BondTypeHead_forward_leading_axis (h : BondTypeHead.t R) :
  (forall N (z : tensor R 3),
      BondTypeHead.wf h = true ->
      has_shape 3 [N; N; BondTypeHead.c_in h] z = true ->
      exists out,
        BondTypeHead.forward 3 z h = Some (out, h)
        /\ Sequential.forward 3 (unsqueeze0 z) (BondTypeHead.classifier h)
           = Some (out, BondTypeHead.classifier h)
        /\ has_shape 4 [1; N; N; BondTypeHead.no_bond_types h] out = true)
  /\
  (forall n (z : tensor R (S n)) out h',
      BondTypeHead.forward (S n) z h = Some (out, h') ->
      exists t : tensor R (S n), out = [t]).
Proof.
  split.
  - intros N z Hh Hz.
    destruct (BondTypeHead_forward_returns h 2 [N; N] z Hh Hz)
      as (out & E & Hs).
    exists out. split; [exact E|]. split; [|exact Hs].
    rewrite BondTypeHead_forward_eq in E. unfold Sequential.forward.
    destruct (Sequential.run 3 (BondTypeHead.classifier h) (unsqueeze0 z))
      as [[logits ls]|] eqn:Er; [|discriminate].
    apply Sequential_run_stateless in Er as Hls. subst ls.
    inversion E. reflexivity.
  - intros n z out h' E. rewrite BondTypeHead_forward_eq in E.
    destruct (Sequential.run (S n) (BondTypeHead.classifier h)
                (unsqueeze0 z)) as [[logits ls]|] eqn:Er; [|discriminate].
    apply Sequential_run_length in Er. inversion E. subst out.
    destruct logits as [|t [|t' logits]]; try discriminate.
    exists t. reflexivity.
Qed.

(** C7.  Determinism: for each of the three heads, a forward call that
    returns leaves the head as it was, so the same call made again on the
    same input returns the same output. *)
Theorem heads_deterministic :
  (forall n (z : tensor R (S (S (S n)))) h out h',
      DistogramHead.forward n z h = Some (out, h') ->
      twice (DistogramHead.forward n z) h = Some ((out, out), h))
  /\ (forall n (z : tensor R n) h out h',
        BondTypeHead.forward n z h = Some (out, h') ->
        twice (BondTypeHead.forward n z) h = Some ((out, out), h))
  /\ (forall n (e : PairFormerOutput R n) h out h',
        PairwiseHead.forward n e h = Some (out, h') ->
        twice (PairwiseHead.forward n e) h = Some ((out, out), h)).
Proof.
  split; [|split]; intros n x h out h' E.
  - exact (twice_stateless _ _ _ h h' out
             (DistogramHead_forward_stateless n x) E).
  - exact (twice_stateless _ _ _ h h' out
             (BondTypeHead_forward_stateless n x) E).
  - exact (twice_stateless _ _ _ h h' out
             (PairwiseHead_forward_stateless n x) E).
Qed.

(** C10.  A pairwise head with [bond_reconstruction = True] on an input
    whose [z] has the shape [(B, N, N, c_z)]: the distogram has rank 4 and
    shape [(B, N, N, no_bins)], the bond-type logits have rank 5 and
    shape [(1, B, N, N, no_bond_types)], one leading axis more. *)
Theorem PairwiseHead_forward_batched_shapes
    (h : PairwiseHead.t R) (B N : nat) (e : PairFormerOutput R 1) :
  PairwiseHead.wf h = true ->
  PairwiseHead.bond_reconstruction h = true ->
  has_shape 4
    [B; N; N; DistogramHead.c_z (PairwiseHead.distogram_head h)] (z e)
  = true ->
  exists (bh : BondTypeHead.t R) (d : tensor R 4) (b : tensor R 5),
    PairwiseHead.bond_type_head h = Some bh
    /\ PairwiseHead.forward 1 e h
       = Some (mkPairwiseOutput (pack 4 d) (Some (pack 5 b)), h)
    /\ has_shape 4
         [B; N; N; DistogramHead.no_bins (PairwiseHead.distogram_head h)]
         d = true
    /\ has_shape 5 [1; B; N; N; BondTypeHead.no_bond_types bh] b = true.
Proof.
  intros Hh Hflag Hz.
  destruct (PairwiseHead.bond_type_head h) as [bh|] eqn:Hb.
  - destruct (PairwiseHead_forward_returns_both h bh 1 [B] N e Hh Hb Hz)
      as (d & b & E & Hd & Hbs).
    exists bh, d, b. repeat split; assumption.
  - unfold PairwiseHead.wf in Hh. rewrite Hb, Hflag in Hh.
    rewrite andb_true_iff in Hh. destruct Hh as [_ Hh]. discriminate Hh.
Qed.

End PairwiseHeadProperties.

Lemma PairwiseHead_bond_type_optional_witness :
  (exists out,
     PairwiseHead.forward 1 (mkPairFormerOutput 1 Example.z_1334)
       (PairwiseHead.init Example.D 4 2 2 false)
     = Some (out, PairwiseHead.init Example.D 4 2 2 false)
     /\ token_bond_type_logits out = None)
  /\
  (exists out t,
     PairwiseHead.forward 1 (mkPairFormerOutput 1 Example.z_1334)
       (PairwiseHead.init Example.D 4 2 2 true)
     = Some (out, PairwiseHead.init Example.D 4 2 2 true)
     /\ token_bond_type_logits out = Some t).
Proof.
  pose proof (@PairwiseHead_bond_type_optional Z Z_Scalar Example.D 4 2 2)
    as [(_ & _ & Hoff) (_ & Hon)].
  split.
  - apply (Hoff 1 [1] 3 (mkPairFormerOutput 1 Example.z_1334)).
    reflexivity.
  - apply (Hon 1 [1] 3 (mkPairFormerOutput 1 Example.z_1334));
      reflexivity.
Defined.

Lemma BondTypeHead_forward_leading_axis_witness :
  exists out,
    BondTypeHead.forward 3 Example.z_334 Example.bond_type_head
    = Some (out, Example.bond_type_head)
    /\ Torch.has_shape 4 [1; 3; 3; 2] out = true
    /\ exists t : Torch.tensor Z 3, out = [t].
Proof.
  pose proof (@BondTypeHead_forward_leading_axis Z Z_Scalar
                Example.bond_type_head) as [Hshape Haxis].
  destruct (Hshape 3 Example.z_334 eq_refl eq_refl)
    as (out & E & _ & Hs).
  exists out. split; [exact E|]. split; [exact Hs|].
  exact (Haxis 2 Example.z_334 out Example.bond_type_head E).
Defined.

Lemma heads_deterministic_witness :
  (exists out,
     twice (DistogramHead.forward 1 Example.z_1334) Example.distogram_head
     = Some ((out, out), Example.distogram_head))
  /\ (exists out,
        twice (BondTypeHead.forward 3 Example.z_334) Example.bond_type_head
        = Some ((out, out), Example.bond_type_head))
  /\ (exists out,
        twice (PairwiseHead.forward 1
                 (mkPairFormerOutput 1 Example.z_1334))
          Example.pairwise_head
        = Some ((out, out), Example.pairwise_head)).
Proof.
  pose proof (@heads_deterministic Z Z_Scalar) as (Hd & Hb & Hp).
  split; [|split].
  - destruct (DistogramHead.forward 1 Example.z_1334
                Example.distogram_head) as [[out h']|] eqn:E;
      [|discriminate E].
    exists out. exact (Hd 1 _ _ out h' E).
  - destruct (BondTypeHead.forward 3 Example.z_334
                Example.bond_type_head) as [[out h']|] eqn:E;
      [|discriminate E].
    exists out. exact (Hb 3 _ _ out h' E).
  - destruct (PairwiseHead.forward 1
                (mkPairFormerOutput 1 Example.z_1334)
                Example.pairwise_head) as [[out h']|] eqn:E;
      [|discriminate E].
    exists out. exact (Hp 1 _ _ out h' E).
Defined.

Lemma PairwiseHead_forward_batched_shapes_witness :
  exists (bh : BondTypeHead.t Z) (d : Torch.tensor Z 4)
         (b : Torch.tensor Z 5),
    PairwiseHead.bond_type_head Example.pairwise_head = Some bh
    /\ PairwiseHead.forward 1 (mkPairFormerOutput 1 Example.z_1334)
         Example.pairwise_head
       = Some (mkPairwiseOutput (Torch.pack 4 d) (Some (Torch.pack 5 b)),
               Example.pairwise_head)
    /\ Torch.has_shape 4 [1; 3; 3; 2] d = true
    /\ Torch.has_shape 5
         [1; 1; 3; 3; BondTypeHead.no_bond_types bh] b = true.
Proof.
  apply (@PairwiseHead_forward_batched_shapes Z Z_Scalar
           Example.pairwise_head 1 3
           (mkPairFormerOutput 1 Example.z_1334));
    reflexivity.
Defined.

(* ================================================================== *)
(** * The classifier of the bond-type head as one affine map *)

Section Collapse.
Import Torch.
Context {R : Type} `{Scalar R}.

Hypothesis add_assoc : forall a b c : R, (a + (b + c))%R = (a + b + c)%R.
Hypothesis add_comm : forall a b : R, (a + b)%R = (b + a)%R.
Hypothesis add_0_l : forall a : R, (zero + a)%R = a.
Hypothesis mul_0_l : forall a : R, (zero * a)%R = zero.
Hypothesis mul_0_r : forall a : R, (a * zero)%R = zero.
Hypothesis mul_assoc : forall a b c : R, (a * (b * c))%R = (a * b * c)%R.
Hypothesis mul_add_distr_l :
  forall a b c : R, (a * (b + c))%R = (a * b + a * c)%R.
Hypothesis mul_add_distr_r :
  forall a b c : R, ((a + b) * c)%R = (a * c + b * c)%R.

Lemma dot_nil_r (x : list R) : dot x [] = zero.
Proof. unfold dot. destruct x; reflexivity. Qed.

Lemma dot_cons (a b : R) (x w : list R) :
  dot (a :: x) (b :: w) = (a * b + dot x w)%R.
Proof. reflexivity. Qed.

(** Two sums added: the sum of the added terms. *)
Lemma add_swap (a b c d : R) :
  (a + b + (c + d))%R = (a + c + (b + d))%R.
Proof.
  rewrite <- (add_assoc a b), (add_assoc b c d), (add_comm b c).
  rewrite <- (add_assoc c b d), (add_assoc a c). reflexivity.
Qed.

Lemma dot_add_r (x u v : list R) :
  length u = length v ->
  dot x (zipWith add u v) = (dot x u + dot x v)%R.
Proof.
  revert u v. induction x as [|a x IH]; intros u v Huv.
  - unfold dot. simpl. symmetry. apply add_0_l.
  - destruct u as [|p u], v as [|q v]; try discriminate.
    + rewrite !dot_nil_r. symmetry. apply add_0_l.
    + cbn [zipWith]. rewrite !dot_cons, IH by (simpl in Huv; lia).
      rewrite mul_add_distr_l. apply add_swap.
Qed.

Lemma dot_add_l (u v w : list R) :
  length u = length v ->
  dot (zipWith add u v) w = (dot u w + dot v w)%R.
Proof.
  revert u v. induction w as [|c w IH]; intros u v Huv.
  - rewrite !dot_nil_r. symmetry. apply add_0_l.
  - destruct u as [|p u], v as [|q v]; try discriminate.
    + unfold dot. simpl. symmetry. apply add_0_l.
    + cbn [zipWith]. rewrite !dot_cons, IH by (simpl in Huv; lia).
      rewrite mul_add_distr_r. apply add_swap.
Qed.

Lemma dot_scale_r (x r : list R) (a : R) :
  dot x (map (fun e => (e * a)%R) r) = (dot x r * a)%R.
Proof.
  revert r. induction x as [|p x IH]; intros r.
  - unfold dot. simpl. symmetry. apply mul_0_l.
  - destruct r as [|q r].
    + rewrite dot_nil_r. simpl. rewrite dot_nil_r. symmetry.
      apply mul_0_l.
    + cbn [map]. rewrite !dot_cons, IH, mul_add_distr_r, mul_assoc.
      reflexivity.
Qed.

Lemma dot_repeat_zero (x : list R) (c : nat) :
  dot x (repeat zero c) = zero.
Proof.
  apply dot_zeros; [exact mul_0_r | apply add_0_l].
Qed.

Lemma compose_row_length (c : nat) (w1 : list (list R)) (w2 : list R) :
  (forall r, In r w1 -> length r = c) ->
  length (Linear.compose_row c w1 w2) = c.
Proof.
  unfold Linear.compose_row. revert w2.
  induction w1 as [|r w1 IH]; intros w2 Hw1.
  - simpl. apply repeat_length.
  - destruct w2 as [|a w2]; [apply repeat_length|].
    cbn [combine fold_right fst snd].
    rewrite zipWith_length, length_map, IH.
    + rewrite (Hw1 r (or_introl eq_refl)). apply Nat.min_id.
    + intros r' Hr'. apply Hw1. right. exact Hr'.
Qed.

(** The heart of the matter: the scalar product with a composed row is
    the scalar product of the first layer's products with the row. *)
Lemma dot_compose_row (c : nat) (x : list R) (w1 : list (list R))
    (w2 : list R) :
  (forall r, In r w1 -> length r = c) ->
  dot x (Linear.compose_row c w1 w2) = dot (map (dot x) w1) w2.
Proof.
  revert w2. induction w1 as [|r w1 IH]; intros w2 Hw1.
  - unfold Linear.compose_row. simpl. rewrite dot_repeat_zero.
    unfold dot. reflexivity.
  - destruct w2 as [|a w2].
    + unfold Linear.compose_row. simpl. rewrite dot_repeat_zero, dot_nil_r.
      reflexivity.
    + change (Linear.compose_row c (r :: w1) (a :: w2))
        with (zipWith add (map (fun e => (e * a)%R) r)
                (Linear.compose_row c w1 w2)).
      assert (Hw1' : forall r', In r' w1 -> length r' = c).
      { intros r' Hr'. apply Hw1. right. exact Hr'. }
      rewrite dot_add_r.
      * rewrite dot_scale_r, IH by exact Hw1'. reflexivity.
      * rewrite length_map, compose_row_length by exact Hw1'.
        apply Hw1. left. reflexivity.
Qed.

Lemma zipWith_map_map (X : Type) (f g : X -> R) (l : list X) :
  zipWith add (map f l) (map g l) = map (fun e => (f e + g e)%R) l.
Proof.
  induction l as [|e l IH]; simpl; [reflexivity|]. f_equal. exact IH.
Qed.

Lemma zipWith_add_assoc (u v w : list R) :
  zipWith add (zipWith add u v) w = zipWith add u (zipWith add v w).
Proof.
  revert v w. induction u as [|a u IH]; intros [|b v] [|c w]; simpl;
    try reflexivity.
  rewrite IH, add_assoc. reflexivity.
Qed.

(** On one feature vector: the second layer after the first is the
    composed layer. *)
Lemma affine_compose (l1 l2 : Linear.t R) (x : list R) :
  Linear.wf l1 = true ->
  affine (Linear.weight l2) (Linear.bias l2)
    (affine (Linear.weight l1) (Linear.bias l1) x)
  = affine (Linear.weight (Linear.compose l1 l2))
      (Linear.bias (Linear.compose l1 l2)) x.
Proof.
  unfold Linear.wf. rewrite !andb_true_iff.
  intros [[Hlen Hrows] Hb]. apply Nat.eqb_eq in Hlen.
  assert (Hw1 : forall r, In r (Linear.weight l1) ->
                          length r = Linear.in_features l1).
  { intros r Hr. apply Nat.eqb_eq.
    apply (proj1 (forallb_forall _ _) Hrows r Hr). }
  unfold affine, Linear.compose. cbn [Linear.weight Linear.bias].
  rewrite map_map.
  destruct (Linear.bias l1) as [b1|].
  - apply Nat.eqb_eq in Hb.
    assert (Hd : forall w2,
               dot (add_bias (Some b1) (map (dot x) (Linear.weight l1))) w2
               = (dot x (Linear.compose_row (Linear.in_features l1)
                           (Linear.weight l1) w2)
                  + dot b1 w2)%R).
    { intros w2. cbn [add_bias].
      rewrite dot_add_l by (rewrite length_map; congruence).
      rewrite dot_compose_row by exact Hw1. reflexivity. }
    rewrite (map_ext _ _ Hd).
    rewrite <- (zipWith_map_map _
                  (fun w2 => dot x (Linear.compose_row
                                      (Linear.in_features l1)
                                      (Linear.weight l1) w2))
                  (dot b1)).
    destruct (Linear.bias l2) as [b2|]; cbn [add_bias].
    + apply zipWith_add_assoc.
    + reflexivity.
  - assert (Hd : forall w2,
               dot (add_bias None (map (dot x) (Linear.weight l1))) w2
               = dot x (Linear.compose_row (Linear.in_features l1)
                          (Linear.weight l1) w2)).
    { intros w2. cbn [add_bias]. symmetry.
      apply dot_compose_row. exact Hw1. }
    rewrite (map_ext _ _ Hd).
    destruct (Linear.bias l2); reflexivity.
Qed.

Lemma mapM_compose (X Y W : Type) (f : X -> option Y) (g : Y -> option W)
    (l : list X) :
  mapM (fun e => match f e with Some y => g y | None => None end) l
  = match mapM f l with
    | Some l' => mapM g l'
    | None => None
    end.
Proof.
  induction l as [|e l IH]; simpl; [reflexivity|].
  destruct (f e) as [y|]; [|reflexivity].
  rewrite IH.
  destruct (mapM f l) as [ys|]; simpl; destruct (g y); reflexivity.
Qed.

Lemma compose_wf (l1 l2 : Linear.t R) :
  Linear.wf l1 = true -> Linear.wf l2 = true ->
  Linear.wf (Linear.compose l1 l2) = true.
Proof.
  unfold Linear.wf. rewrite !andb_true_iff.
  intros [[_ Hrows1] _] [[Hlen2 _] Hb2]. apply Nat.eqb_eq in Hlen2.
  cbn [Linear.compose Linear.weight Linear.bias Linear.in_features
       Linear.out_features].
  split; [split|].
  - rewrite length_map. apply Nat.eqb_eq. exact Hlen2.
  - apply forallb_forall. intros r Hr. apply in_map_iff in Hr.
    destruct Hr as (w2 & <- & _). apply Nat.eqb_eq.
    apply compose_row_length. intros r Hr. apply Nat.eqb_eq.
    apply (proj1 (forallb_forall _ _) Hrows1 r Hr).
  - destruct (Linear.bias l1) as [b1|], (Linear.bias l2) as [b2|];
      try exact Hb2; try reflexivity.
    + apply Nat.eqb_eq in Hb2. apply Nat.eqb_eq.
      rewrite zipWith_length, length_map. lia.
    + apply Nat.eqb_eq. rewrite length_map. exact Hlen2.
Qed.

(** On a tensor: the second layer after the first is the composed
    layer, also where they raise. *)
Lemma linear_compose (l1 l2 : Linear.t R) (n : nat) (x : tensor R (S n)) :
  Linear.wf l1 = true ->
  Linear.out_features l1 = Linear.in_features l2 ->
  match linear n (Linear.in_features l1) (Linear.weight l1)
          (Linear.bias l1) x with
  | Some y => linear n (Linear.in_features l2) (Linear.weight l2)
                (Linear.bias l2) y
  | None => None
  end
  = linear n (Linear.in_features (Linear.compose l1 l2))
      (Linear.weight (Linear.compose l1 l2))
      (Linear.bias (Linear.compose l1 l2)) x.
Proof.
  intros Hl1 Hio. revert x. induction n as [|n IH]; intros x.
  - rewrite !linear_0.
    change (Linear.in_features (Linear.compose l1 l2))
      with (Linear.in_features l1).
    destruct (@length (tensor R 0) x =? Linear.in_features l1);
      [|reflexivity].
    rewrite linear_0.
    change (@length (tensor R 0)
              (affine (Linear.weight l1) (Linear.bias l1) x))
      with (length (affine (Linear.weight l1) (Linear.bias l1) x)).
    rewrite (affine_length l1 x Hl1), Hio, Nat.eqb_refl. f_equal.
    apply affine_compose. exact Hl1.
  - rewrite (linear_S n _ _ _ x).
    transitivity
      (mapM (fun e : tensor R (S n) =>
               match linear n (Linear.in_features l1) (Linear.weight l1)
                       (Linear.bias l1) e with
               | Some y => linear n (Linear.in_features l2)
                             (Linear.weight l2) (Linear.bias l2) y
               | None => None
               end) x).
    + symmetry.
      exact (mapM_compose (tensor R (S n)) (tensor R (S n))
               (tensor R (S n)) _ _ x).
    + rewrite linear_S. apply mapM_ext. exact IH.
Qed.

(** C9 (as amended).  In exact arithmetic, that is for scalars that obey
    the laws of a semiring listed above, the classifier of a bond-type
    head collapses to one affine map.  [__init__] builds the classifier
    as two chained layers [c_in -> c_hidden -> no_bond_types] with
    nothing between them (the built head is well-formed as soon as the
    default parameters of the two layers have their sizes); and for
    every head of that form there is a single layer from [c_in] to
    [no_bond_types] features that returns on every input what the
    classifier returns, and raises where it raises. *)
Theorem BondTypeHead_classifier_collapses :
  (forall (D : Linear.defaults R) (c_z c_hidden no_bond_types : nat),
      Linear.wf (Linear.init D c_z c_hidden "default") = true ->
      Linear.wf (Linear.init D c_hidden no_bond_types "default") = true ->
      BondTypeHead.classifier
        (BondTypeHead.init D c_z c_hidden no_bond_types)
      = [ Linear.init D c_z c_hidden "default";
          Linear.init D c_hidden no_bond_types "default" ]
      /\ BondTypeHead.wf (BondTypeHead.init D c_z c_hidden no_bond_types)
         = true)
  /\
  (forall h : BondTypeHead.t R,
      BondTypeHead.wf h = true ->
      exists l : Linear.t R,
        Linear.in_features l = BondTypeHead.c_in h
        /\ Linear.out_features l = BondTypeHead.no_bond_types h
        /\ Linear.wf l = true
        /\ forall n (x : tensor R (S n)),
             option_map fst
               (Sequential.forward n x (BondTypeHead.classifier h))
             = option_map fst (Linear.forward n x l)).
Proof.
  split.
  - intros D c_z c_hidden no_bond_types Hw1 Hw2.
    split; [reflexivity|].
    unfold BondTypeHead.wf.
    cbn [BondTypeHead.init BondTypeHead.classifier BondTypeHead.c_in
         BondTypeHead.c_hidden BondTypeHead.no_bond_types].
    rewrite Hw1, Hw2.
    cbn [Linear.init Linear.in_features Linear.out_features].
    rewrite !Nat.eqb_refl. reflexivity.
  - intros h. unfold BondTypeHead.wf.
    destruct (BondTypeHead.classifier h) as [|l1 [|l2 [|l3 ls]]];
      try discriminate.
    rewrite !andb_true_iff, !Nat.eqb_eq.
    intros [[[[[Hi1 Ho1] Hi2] Ho2] Hw1] Hw2].
    exists (Linear.compose l1 l2).
    split; [exact Hi1|]. split; [exact Ho2|].
    split; [apply compose_wf; assumption|].
    intros n x. unfold Sequential.forward.
    rewrite Sequential_run_two, Linear_forward_eq.
    rewrite <- (linear_compose l1 l2 n x Hw1) by congruence.
    destruct (linear n _ _ _ x) as [y|]; [|reflexivity].
    destruct (linear n _ _ _ y); reflexivity.
Qed.

End Collapse.

Lemma BondTypeHead_classifier_collapses_witness :
  BondTypeHead.wf (BondTypeHead.init Example.D 4 3 2) = true
  /\ exists l : Linear.t Z,
       Linear.in_features l = 4
       /\ Linear.out_features l = 2
       /\ Linear.wf l = true
       /\ forall n (x : Torch.tensor Z (S n)),
            option_map fst
              (Sequential.forward n x
                 (BondTypeHead.classifier
                    (BondTypeHead.init Example.D 4 3 2)))
            = option_map fst (Linear.forward n x l).
Proof.
  destruct (@BondTypeHead_classifier_collapses Z Z_Scalar
              Z.add_assoc Z.add_comm Z.add_0_l Z.mul_0_l Z.mul_0_r
              Z.mul_assoc Z.mul_add_distr_l Z.mul_add_distr_r)
    as [Hinit Hall].
  destruct (Hinit Example.D 4 3 2 eq_refl eq_refl) as [_ Hwf].
  split; [exact Hwf|].
  exact (Hall (BondTypeHead.init Example.D 4 3 2) Hwf).
Defined.

Section CollapseFloat.
Import Floats.
Import Torch.

(** What a layer with one weight [w] and a bias [b] returns on the
    one-entry vectors [0], [infinity] and [-infinity] cannot be
    [infinity], [infinity] and [-infinity]: with a bias that lifts [0]
    to [infinity], the weight cannot keep [-infinity]. *)
Lemma one_weight_layer_limits (w : float) (b : option float) :
  let out x := match b with
               | Some b' => (x * w + 0 + b')%float
               | None => (x * w + 0)%float
               end in
  out 0%float = infinity -> out infinity = infinity ->
  out neg_infinity = neg_infinity -> False.
Proof.
  intros out H0 Hp Hm. unfold out in *.
  destruct b as [b'|].
  - apply (f_equal Prim2SF) in H0, Hp, Hm.
    rewrite !add_spec, !mul_spec in H0, Hp, Hm.
    change (Prim2SF 0) with (S754_zero false) in *.
    change (Prim2SF infinity) with (S754_infinity false) in *.
    change (Prim2SF neg_infinity) with (S754_infinity true) in *.
    destruct (Prim2SF w) as [s|s| |s m e];
      destruct (Prim2SF b') as [s'|s'| |s' m' e'];
      try destruct s; try destruct s';
      cbv in H0, Hp, Hm; congruence.
  - apply (f_equal Prim2SF) in H0.
    rewrite !add_spec, !mul_spec in H0.
    change (Prim2SF 0) with (S754_zero false) in *.
    change (Prim2SF infinity) with (S754_infinity false) in *.
    destruct (Prim2SF w) as [s|s| |s m e]; try destruct s;
      cbv in H0; congruence.
Qed.

(** The claim C9 as it was stated, over the floats of the program.  For
    the head that [__init__] builds with all parameters [2^600], no
    single layer returns what the classifier returns on [0], [infinity]
    and [-infinity]: the classifier overflows on [0].  And for the head
    with weights [2] and [1/2], the composed layer differs from the
    classifier on [1.5 * 2^1023], where the first layer overflows. *)
Lemma BondTypeHead_classifier_collapses_counterexample :
  (BondTypeHead.wf ExampleFloat.bond_type_head = true
   /\ ~ exists l : Linear.t float,
         Linear.in_features l = 1
         /\ Linear.out_features l = 1
         /\ Linear.wf l = true
         /\ forall n (x : tensor float (S n)),
              option_map fst
                (Sequential.forward n x
                   (BondTypeHead.classifier ExampleFloat.bond_type_head))
              = option_map fst (Linear.forward n x l))
  /\
  (option_map fst
     (Sequential.forward 0 ([0x1.8p1023%float] : tensor float 1)
        (BondTypeHead.classifier ExampleFloat.halving_head))
   = Some [infinity]
   /\ option_map fst
        (Linear.forward 0 ([0x1.8p1023%float] : tensor float 1)
           (Linear.compose (Linear.mk 1 1 [[2%float]] None)
              (Linear.mk 1 1 [[0.5%float]] None)))
      = Some [0x1.8p1023%float]).
Proof.
  split; [split; [reflexivity|] | split; reflexivity].
  intros (l & Hi & Ho & Hw & Heq).
  destruct l as [i o W b]. cbn in Hi, Ho. subst i o.
  unfold Linear.wf in Hw. cbn in Hw.
  destruct W as [|r [|r' W']]; try discriminate Hw.
  destruct r as [|w [|w' r]]; try discriminate Hw.
  pose proof (Heq 0 ([0%float] : tensor float 1)) as H0.
  pose proof (Heq 0 ([infinity] : tensor float 1)) as Hp.
  pose proof (Heq 0 ([neg_infinity] : tensor float 1)) as Hm.
  clear Heq.
  assert (Hb : exists b0 : option float,
             b = match b0 with Some b' => Some [b'] | None => None end).
  { destruct b as [[|b' [|b'' bs]]|]; try discriminate Hw.
    - exists (Some b'). reflexivity.
    - exists None. reflexivity. }
  destruct Hb as (b0 & ->).
  apply (one_weight_layer_limits w b0).
  - destruct b0 as [b'|]; vm_compute in H0;
      apply (f_equal (fun o => match o with
                               | Some (x :: _) => x
                               | _ => 0%float
                               end)) in H0;
      symmetry; exact H0.
  - destruct b0 as [b'|]; vm_compute in Hp;
      apply (f_equal (fun o => match o with
                               | Some (x :: _) => x
                               | _ => 0%float
                               end)) in Hp;
      symmetry; exact Hp.
  - destruct b0 as [b'|]; vm_compute in Hm;
      apply (f_equal (fun o => match o with
                               | Some (x :: _) => x
                               | _ => 0%float
                               end)) in Hm;
      symmetry; exact Hm.
Qed.

End CollapseFloat.

(* ================================================================== *)
(** * Further properties of the heads *)

(** From a shape [s ++ tail] of a tensor: a case analysis on [s] that
    leaves the case its rank allows. *)
Ltac leading_sizes Ht s d :=
  let Hs := fresh "Hrank" in
  pose proof (has_shape_rank _ _ _ Ht) as Hs;
  rewrite length_app in Hs; simpl in Hs;
  destruct s as [|d s]; simpl in Hs; try lia;
  clear Hs; simpl app in *.

(** ** Inputs of the wrong feature width *)

Section WidthMismatch.
Import Torch.
Context {R : Type} `{Scalar R}.

(** A layer raises on a tensor that holds at least one feature vector
    when the last axis has another size than [in_features]. *)
Lemma linear_width_mismatch (n c cin : nat) (w : list (list R))
    (b : option (list R)) (s : list nat) (t : tensor R (S n)) :
  has_shape (S n) (s ++ [c]) t = true ->
  Forall (lt 0) s -> c <> cin ->
  linear n cin w b t = None.
Proof.
  revert s t. induction n as [|n IH]; intros s t Ht Hs Hc.
  - leading_sizes Ht s d.
    apply has_shape_S in Ht. destruct Ht as (_ & Hlen & _).
    rewrite linear_0, Hlen.
    destruct (Nat.eqb_spec c cin); [contradiction | reflexivity].
  - leading_sizes Ht s d.
    apply has_shape_S in Ht. destruct Ht as (_ & Hlen & Hin).
    inversion Hs as [|d' s' Hd Hs' Heq]. clear Hs.
    rewrite linear_S.
    destruct t as [|x t]; [simpl in Hlen; lia|].
    cbn [mapM]. rewrite (IH s x); [reflexivity | | exact Hs' | exact Hc].
    apply Hin. left. reflexivity.
Qed.

(** X3.  [DistogramHead.forward] raises on an input of shape
    [(..., N, N, c)] that holds at least one feature vector when [c] is
    not the [c_z] of the head. *)
Theorem DistogramHead_forward_width_mismatch
    (h : DistogramHead.t R) (n : nat) (bs : list nat) (N c : nat)
    (z : tensor R (S (S (S n)))) :
  DistogramHead.wf h = true ->
  has_shape (S (S (S n))) (bs ++ [N; N; c]) z = true ->
  Forall (lt 0) bs -> 0 < N ->
  c <> DistogramHead.c_z h ->
  DistogramHead.forward n z h = None.
Proof.
  unfold DistogramHead.wf. rewrite !andb_true_iff, !Nat.eqb_eq.
  intros [[Hin _] _] Hz Hbs HN Hc.
  rewrite DistogramHead_forward_eq.
  replace (bs ++ [N; N; c]) with ((bs ++ [N; N]) ++ [c]) in Hz
    by (rewrite <- app_assoc; reflexivity).
  rewrite (linear_width_mismatch _ c _ _ _ (bs ++ [N; N]) z Hz);
    [reflexivity | | congruence].
  apply Forall_app. split; [exact Hbs|]. repeat constructor; exact HN.
Qed.

(** X9.  [BondTypeHead.forward] raises on an input of rank one or more
    that holds at least one feature vector when its last axis has another
    size than the [c_in] of the head. *)
Theorem BondTypeHead_forward_width_mismatch
    (h : BondTypeHead.t R) (n : nat) (s : list nat) (c : nat)
    (z : tensor R (S n)) :
  BondTypeHead.wf h = true ->
  has_shape (S n) (s ++ [c]) z = true ->
  Forall (lt 0) s ->
  c <> BondTypeHead.c_in h ->
  BondTypeHead.forward (S n) z h = None.
Proof.
  unfold BondTypeHead.wf. intros Hh Hz Hs Hc.
  rewrite BondTypeHead_forward_eq.
  destruct (BondTypeHead.classifier h) as [|l1 [|l2 [|l3 ls]]];
    try discriminate.
  rewrite !andb_true_iff, !Nat.eqb_eq in Hh.
  destruct Hh as [[[[[Hi1 _] _] _] _] _].
  rewrite Sequential_run_two.
  rewrite (linear_width_mismatch _ c _ _ _ (1 :: s) (unsqueeze0 z));
    [reflexivity | | | congruence].
  - apply has_shape_S. split; [|split].
    + apply has_shape_rank in Hz. exact Hz.
    + reflexivity.
    + intros x [<-|[]]. exact Hz.
  - constructor; [lia | exact Hs].
Qed.

(** X12.  [PairwiseHead.forward] raises on such an input whatever the
    flag is: the distogram is computed first. *)
Theorem PairwiseHead_forward_width_mismatch
    (h : PairwiseHead.t R) (n : nat) (bs : list nat) (N c : nat)
    (e : PairFormerOutput R n) :
  DistogramHead.wf (PairwiseHead.distogram_head h) = true ->
  has_shape (S (S (S n))) (bs ++ [N; N; c]) (z e) = true ->
  Forall (lt 0) bs -> 0 < N ->
  c <> DistogramHead.c_z (PairwiseHead.distogram_head h) ->
  PairwiseHead.forward n e h = None.
Proof.
  intros Hh Hz Hbs HN Hc. rewrite PairwiseHead_forward_eq.
  unfold DistogramHead.wf in Hh.
  rewrite !andb_true_iff, !Nat.eqb_eq in Hh. destruct Hh as [[Hin _] _].
  rewrite DistogramHead_forward_eq.
  replace (bs ++ [N; N; c]) with ((bs ++ [N; N]) ++ [c]) in Hz
    by (rewrite <- app_assoc; reflexivity).
  rewrite (linear_width_mismatch _ c _ _ _ (bs ++ [N; N]) (z e) Hz);
    [reflexivity | | congruence].
  apply Forall_app. split; [exact Hbs|]. repeat constructor; exact HN.
Qed.

End WidthMismatch.

Lemma DistogramHead_forward_width_mismatch_witness :
  DistogramHead.forward 0 (Example2.ramp 3 3 5) Example.distogram_head
  = None.
Proof.
  apply (@DistogramHead_forward_width_mismatch Z Z_Scalar
           Example.distogram_head 0 [] 3 5 (Example2.ramp 3 3 5));
    try reflexivity; try constructor; try lia; discriminate.
Defined.

Lemma BondTypeHead_forward_width_mismatch_witness :
  BondTypeHead.forward 3 (Example2.ramp 3 3 5) Example.bond_type_head
  = None.
Proof.
  apply (@BondTypeHead_forward_width_mismatch Z Z_Scalar
           Example.bond_type_head 2 [3; 3] 5 (Example2.ramp 3 3 5));
    try reflexivity; try (repeat constructor; lia); discriminate.
Defined.

Lemma PairwiseHead_forward_width_mismatch_witness :
  PairwiseHead.forward 0 (mkPairFormerOutput 0 (Example2.ramp 3 3 5))
    Example.pairwise_head
  = None.
Proof.
  apply (@PairwiseHead_forward_width_mismatch Z Z_Scalar
           Example.pairwise_head 0 [] 3 5
           (mkPairFormerOutput 0 (Example2.ramp 3 3 5)));
    try reflexivity; try constructor; try lia; discriminate.
Defined.

(** ** Leading axes *)

Section LeadingAxes.
Import Torch.
Context {R : Type} `{Scalar R}.

Lemma mapM_Forall2 (X Y : Type) (f : X -> option Y) (l : list X)
    (l' : list Y) :
  mapM f l = Some l' -> Forall2 (fun x y => f x = Some y) l l'.
Proof.
  revert l'. induction l as [|x l IH]; intros l' E; simpl in E.
  - inversion E. constructor.
  - destruct (f x) as [y|] eqn:Ex; [|discriminate].
    destruct (mapM f l) as [ys|]; [|discriminate].
    inversion E. constructor; [exact Ex | apply IH; reflexivity].
Qed.

Lemma zipWithM_map_r (X Y : Type) (g : X -> X -> option Y) (t : X -> X)
    (l : list X) :
  zipWithM g l (map t l) = mapM (fun x => g x (t x)) l.
Proof.
  induction l as [|x l IH]; simpl; [reflexivity|].
  rewrite IH. reflexivity.
Qed.

(** The head on a stack of inputs: the head on each input, raising as
    soon as it raises on one of them. *)
Lemma DistogramHead_forward_stack (h : DistogramHead.t R) (n : nat)
    (z : tensor R (S (S (S (S n))))) :
  option_map fst (DistogramHead.forward (S n) z h)
  = mapM (fun x => option_map fst (DistogramHead.forward n x h)) z.
Proof.
  rewrite DistogramHead_forward_eq.
  set (f := linear (S (S n))
              (Linear.in_features (DistogramHead.linear h))
              (Linear.weight (DistogramHead.linear h))
              (Linear.bias (DistogramHead.linear h))).
  set (g := fun l : tensor R (S (S (S n))) =>
              tadd (S (S (S n))) l (transpose_m2_m3 n l)).
  transitivity
    (mapM (fun x : tensor R (S (S (S n))) =>
             match f x with Some l => g l | None => None end) z).
  - rewrite (mapM_compose (tensor R (S (S (S n))))
               (tensor R (S (S (S n)))) (tensor R (S (S (S n)))) f g z).
    change (linear (S (S (S n)))
              (Linear.in_features (DistogramHead.linear h))
              (Linear.weight (DistogramHead.linear h))
              (Linear.bias (DistogramHead.linear h)) z)
      with (mapM f z).
    destruct (mapM f z) as [l|]; [|reflexivity].
    rewrite transpose_m2_m3_S.
    rewrite (tadd_S_same (S (S (S n))) l (map (transpose_m2_m3 n) l))
      by (rewrite length_map; reflexivity).
    rewrite (zipWithM_map_r (tensor R (S (S (S n))))
               (tensor R (S (S (S n)))) (tadd (S (S (S n))))
               (transpose_m2_m3 n) l).
    fold g. destruct (mapM g l); reflexivity.
  - apply mapM_ext. intros x. rewrite DistogramHead_forward_eq.
    fold f. destruct (f x) as [l|]; [|reflexivity].
    fold (g l). destruct (g l); reflexivity.
Qed.

(** X6.  Batch elements are processed independently: on a batch of
    inputs of shape [(..., N, N, c_z)] the output of
    [DistogramHead.forward] is, element by element, its output on that
    element alone. *)
Theorem DistogramHead_forward_batch_independent
    (h : DistogramHead.t R) (n b : nat) (bs : list nat) (N : nat)
    (z : tensor R (S (S (S (S n))))) :
  DistogramHead.wf h = true ->
  has_shape (S (S (S (S n)))) ((b :: bs) ++ [N; N; DistogramHead.c_z h]) z
  = true ->
  exists outs : list (tensor R (S (S (S n)))),
    DistogramHead.forward (S n) z h = Some (outs, h)
    /\ Forall2 (fun x o => DistogramHead.forward n x h = Some (o, h))
         z outs.
Proof.
  intros Hh Hz.
  destruct (DistogramHead_forward_returns h (S n) (b :: bs) N z Hh Hz)
    as (_ & outs & _ & _ & _ & _ & Ef).
  exists outs. split; [exact Ef|].
  pose proof (DistogramHead_forward_stack h n z) as E.
  rewrite Ef in E. simpl option_map in E. symmetry in E.
  apply mapM_Forall2 in E.
  eapply Forall2_impl; [|exact E].
  intros x o Ex. cbv beta in Ex.
  destruct (DistogramHead.forward n x h) as [[o' h']|] eqn:Eo;
    [|discriminate].
  apply DistogramHead_forward_stateless in Eo as Hh'. subst h'.
  simpl in Ex. inversion Ex. reflexivity.
Qed.

(** [nn.Sequential] under a new leading axis of size one. *)
Lemma Sequential_run_unsqueeze (n : nat) (layers : list (Linear.t R)) :
  forall x : tensor R (S n),
    Sequential.run (S n) layers (unsqueeze0 x)
    = match Sequential.run n layers x with
      | Some (y, ls) => Some (unsqueeze0 y, ls)
      | None => None
      end.
Proof.
  unfold unsqueeze0.
  induction layers as [|l layers IH]; intros x; [reflexivity|].
  cbn [Sequential.run]. rewrite !Linear_forward_eq.
  rewrite (linear_S n _ _ _ [x]). cbn [mapM].
  destruct (linear n _ _ _ x) as [y|]; [|reflexivity].
  rewrite (IH y).
  destruct (Sequential.run n layers y) as [[r ls]|]; reflexivity.
Qed.

(** X7.  The leading axis that [BondTypeHead.forward] inserts is a plain
    wrapper: on an input of rank one or more, the head returns the
    classifier's output on the input itself under one new axis, and
    raises exactly when the classifier raises on the input. *)
Theorem BondTypeHead_forward_wraps_classifier
    (h : BondTypeHead.t R) (n : nat) (z : tensor R (S n)) :
  BondTypeHead.forward (S n) z h
  = match Sequential.forward n z (BondTypeHead.classifier h) with
    | Some (logits, _) => Some (unsqueeze0 logits, h)
    | None => None
    end.
Proof.
  rewrite BondTypeHead_forward_eq, Sequential_run_unsqueeze.
  unfold Sequential.forward.
  destruct (Sequential.run n (BondTypeHead.classifier h) z)
    as [[y ls]|]; reflexivity.
Qed.

(** X8.  On an input of rank zero the inserted axis is the only axis, so
    the classifier takes it for the feature axis: a head with
    [c_in = 1] returns a vector of [no_bond_types] entries, with no
    leading axis of size one in front of it, and a head with another
    [c_in] raises. *)
Theorem BondTypeHead_forward_rank_zero
    (h : BondTypeHead.t R) (z : tensor R 0) :
  BondTypeHead.wf h = true ->
  (BondTypeHead.c_in h = 1 ->
   exists out : tensor R 1,
     BondTypeHead.forward 0 z h = Some (out, h)
     /\ has_shape 1 [BondTypeHead.no_bond_types h] out = true)
  /\ (BondTypeHead.c_in h <> 1 -> BondTypeHead.forward 0 z h = None).
Proof.
  unfold BondTypeHead.wf. intros Hh.
  rewrite BondTypeHead_forward_eq.
  destruct (BondTypeHead.classifier h) as [|l1 [|l2 [|l3 ls]]];
    try discriminate.
  rewrite !andb_true_iff, !Nat.eqb_eq in Hh.
  destruct Hh as [[[[[Hi1 Ho1] Hi2] Ho2] Hw1] Hw2].
  rewrite Sequential_run_two, (linear_0 _ _ _ (unsqueeze0 z)).
  change (@length (tensor R 0) (unsqueeze0 z)) with 1.
  rewrite Hi1. split; intros Hc.
  - rewrite Hc. cbn [Nat.eqb]. rewrite linear_0.
    change (@length (tensor R 0)
              (affine (Linear.weight l1) (Linear.bias l1) (unsqueeze0 z)))
      with (length (affine (Linear.weight l1) (Linear.bias l1)
                      (unsqueeze0 z))).
    rewrite (affine_length l1 _ Hw1), Ho1, <- Hi2, Nat.eqb_refl.
    eexists. split; [reflexivity|].
    apply has_shape_S. split; [reflexivity | split].
    + rewrite <- Ho2. apply affine_length. exact Hw2.
    + intros x _. reflexivity.
  - destruct (Nat.eqb_spec 1 (BondTypeHead.c_in h)); [|reflexivity].
    congruence.
Qed.

End LeadingAxes.

Lemma DistogramHead_forward_batch_independent_witness :
  exists outs,
    DistogramHead.forward 1 Example2.z_2334 Example.distogram_head
    = Some (outs, Example.distogram_head)
    /\ Forall2 (fun x o =>
                  DistogramHead.forward 0 x Example.distogram_head
                  = Some (o, Example.distogram_head))
         Example2.z_2334 outs.
Proof.
  apply (@DistogramHead_forward_batch_independent Z Z_Scalar
           Example.distogram_head 0 2 [] 3 Example2.z_2334);
    reflexivity.
Defined.

Lemma BondTypeHead_forward_rank_zero_witness :
  (exists out : Torch.tensor Z 1,
     BondTypeHead.forward 0 (7%Z : Torch.tensor Z 0)
       Example2.narrow_bond_type_head
     = Some (out, Example2.narrow_bond_type_head)
     /\ Torch.has_shape 1 [3] out = true)
  /\ BondTypeHead.forward 0 (7%Z : Torch.tensor Z 0)
       Example.bond_type_head = None.
Proof.
  split.
  - apply (@BondTypeHead_forward_rank_zero Z Z_Scalar
             Example2.narrow_bond_type_head 7%Z); reflexivity.
  - apply (@BondTypeHead_forward_rank_zero Z Z_Scalar
             Example.bond_type_head 7%Z); [reflexivity | discriminate].
Defined.

(** ** Token axes of different sizes *)

Section TokenAxes.
Import Torch.
Context {R : Type} `{Scalar R}.

(** Operands whose leading sizes differ and are both two or more cannot
    be added. *)
Lemma tadd_sizes_differ (n : nat) (a b : list (tensor R n)) :
  length a <> length b -> 2 <= length a -> 2 <= length b ->
  tadd (S n) a b = None.
Proof.
  intros Hne Ha Hb. rewrite tadd_S.
  destruct (Nat.eqb_spec (length a) (length b)) as [E|_];
    [contradiction|].
  destruct a as [|a0 [|a1 a']]; simpl in Ha; try lia.
  destruct b as [|b0 [|b1 b']]; simpl in Hb; try lia.
  reflexivity.
Qed.

Lemma tadd_transpose_nonsquare (n : nat) (bs : list nat) (A B c : nat)
    (l : tensor R (S (S (S n)))) :
  has_shape (S (S (S n))) (bs ++ [A; B; c]) l = true ->
  Forall (lt 0) bs -> A <> B -> 2 <= A -> 2 <= B ->
  tadd (S (S (S n))) l (transpose_m2_m3 n l) = None.
Proof.
  revert bs l. induction n as [|n IH]; intros bs l Hl Hbs Hne HA HB.
  - leading_sizes Hl bs d. rewrite transpose_m2_m3_0.
    apply has_shape_S in Hl. destruct Hl as (_ & Hlen & Hrows).
    assert (Hw : forall r, In r (l : list (list (tensor R 1))) ->
                           length r = B).
    { intros r Hr. apply Hrows in Hr. apply has_shape_S in Hr. tauto. }
    assert (Hlt : length (transpose (l : list (list (tensor R 1)))) = B).
    { apply transpose_length; [|exact Hw].
      intros ->. simpl in Hlen. lia. }
    apply (tadd_sizes_differ 2 l (transpose l)).
    + intros E. apply Hne.
      exact (eq_trans (eq_sym Hlen) (eq_trans E Hlt)).
    + apply (Nat.le_trans _ A); [exact HA|].
      apply Nat.eq_le_incl. exact (eq_sym Hlen).
    + apply (Nat.le_trans _ B); [exact HB|].
      apply Nat.eq_le_incl. exact (eq_sym Hlt).
  - leading_sizes Hl bs d. rewrite transpose_m2_m3_S.
    apply has_shape_S in Hl. destruct Hl as (_ & Hlen & Hin).
    inversion Hbs as [|d' bs' Hd Hbs' Heq]. clear Hbs.
    rewrite (tadd_S_same (S (S (S n))) l (map (transpose_m2_m3 n) l))
      by (rewrite length_map; reflexivity).
    destruct l as [|x l]; [simpl in Hlen; lia|].
    cbn [map zipWithM].
    rewrite (IH bs x); [reflexivity | | assumption..].
    apply Hin. left. reflexivity.
Qed.

(** X4.  [DistogramHead.forward] raises on an input whose two token axes
    have different sizes, both two or more: the logits cannot be added to
    their transposed. *)
Theorem DistogramHead_forward_nonsquare
    (h : DistogramHead.t R) (n : nat) (bs : list nat) (A B : nat)
    (z : tensor R (S (S (S n)))) :
  DistogramHead.wf h = true ->
  has_shape (S (S (S n))) (bs ++ [A; B; DistogramHead.c_z h]) z = true ->
  Forall (lt 0) bs -> A <> B -> 2 <= A -> 2 <= B ->
  DistogramHead.forward n z h = None.
Proof.
  unfold DistogramHead.wf. rewrite !andb_true_iff, !Nat.eqb_eq.
  intros [[Hin Hout] Hl] Hz Hbs Hne HA HB.
  rewrite <- Hin in Hz.
  replace (bs ++ [A; B; Linear.in_features (DistogramHead.linear h)])
    with ((bs ++ [A; B]) ++ [Linear.in_features (DistogramHead.linear h)])
    in Hz by (rewrite <- app_assoc; reflexivity).
  destruct (linear_shape _ _ _ z Hl Hz) as (logits & El & Hs).
  rewrite <- app_assoc in Hs. simpl app in Hs.
  rewrite DistogramHead_forward_eq, El.
  rewrite (tadd_transpose_nonsquare n bs A B _ logits Hs Hbs Hne HA HB).
  reflexivity.
Qed.

End TokenAxes.

Lemma DistogramHead_forward_nonsquare_witness :
  DistogramHead.forward 0 (Example2.ramp 2 3 4) Example.distogram_head
  = None.
Proof.
  apply (@DistogramHead_forward_nonsquare Z Z_Scalar
           Example.distogram_head 0 [] 2 3 (Example2.ramp 2 3 4));
    try reflexivity; try constructor; try lia.
Defined.

(** ** A token axis of size one *)

Section Broadcast.
Context {X : Type}.

Lemma map_seq_nth_error (Y : Type) (f : option X -> Y) (r : list X) :
  map (fun j => f (nth_error r j)) (seq 0 (length r))
  = map (fun x => f (Some x)) r.
Proof.
  induction r as [|a r IH]; [reflexivity|].
  cbn [length seq map nth_error]. f_equal.
  rewrite <- seq_shift, map_map. exact IH.
Qed.

(** The transposed of one row: one row per entry. *)
Lemma transpose_one_row (r : list X) :
  transpose [r] = map (fun x => [x]) r.
Proof.
  unfold transpose, column. cbn [flat_map].
  rewrite (map_seq_nth_error _
             (fun o => match o with Some x => [x] | None => [] end ++ [])).
  reflexivity.
Qed.

(** The transposed of a column of one-entry rows: one row. *)
Lemma transpose_one_column (m : list (list X)) :
  m <> [] -> (forall r, In r m -> length r = 1) ->
  transpose m = [column 0 m].
Proof.
  intros Hne Hm. destruct m as [|r m]; [congruence|].
  unfold transpose. rewrite (Hm r (or_introl eq_refl)). reflexivity.
Qed.

Variable f : X -> X -> option X.
Variable P : X -> Prop.
Hypothesis f_keeps :
  forall x y, P x -> P y -> exists v, f x y = Some v /\ P v.

(** One row of [k] entries plus its transposed, [k] other than one:
    [k] rows of [k] entries. *)
Lemma broadcast_one_row (r : list X) :
  length r <> 1 ->
  (forall x, In x r -> P x) ->
  exists o,
    broadcast (broadcast f) [r] (transpose [r]) = Some o
    /\ length o = length r
    /\ forall row, In row o ->
         length row = length r /\ forall v, In v row -> P v.
Proof.
  intros Hk Hr. rewrite transpose_one_row. unfold broadcast at 1.
  rewrite length_map. cbn [length].
  destruct (Nat.eqb_spec 1 (length r)) as [E|_]; [congruence|].
  destruct (mapM_In
              (fun row => length row = length r
                          /\ forall v, In v row -> P v)
              (broadcast f r) (map (fun x => [x]) r))
    as (o & Eo & Hlo & Ho).
  { intros e He. apply in_map_iff in He. destruct He as (x & <- & Hx).
    unfold broadcast. cbn [length].
    destruct (Nat.eqb_spec (length r) 1) as [E|_]; [congruence|].
    destruct r as [|a0 [|a1 r']]; [destruct Hx | simpl in Hk; congruence|].
    destruct (mapM_In P (fun y => f y x) (a0 :: a1 :: r'))
      as (row & Erow & Hlrow & Hrow).
    { intros y Hy. apply f_keeps; [apply Hr; exact Hy | apply Hr; exact Hx]. }
    exists row. split; [exact Erow|]. split; assumption. }
  exists o. split; [exact Eo|]. split; [|exact Ho].
  rewrite Hlo. apply length_map.
Qed.

(** A column of [k] one-entry rows plus its transposed, [k] other than
    one: [k] rows of [k] entries. *)
Lemma broadcast_one_column (m : list (list X)) :
  length m <> 1 ->
  (forall r, In r m -> length r = 1 /\ forall x, In x r -> P x) ->
  exists o,
    broadcast (broadcast f) m (transpose m) = Some o
    /\ length o = length m
    /\ forall row, In row o ->
         length row = length m /\ forall v, In v row -> P v.
Proof.
  intros Hk Hm.
  destruct m as [|x1 [|x2 m']]; [| simpl in Hk; congruence |].
  { exists []. split; [reflexivity|]. split; [reflexivity|].
    intros row []. }
  set (m := x1 :: x2 :: m') in *.
  assert (Hone : forall r, In r m -> length r = 1)
    by (intros r Hr; apply (Hm r Hr)).
  assert (Hreach : forall r, In r m -> 0 < length r)
    by (intros r Hr; rewrite (Hone r Hr); lia).
  rewrite (transpose_one_column m); [|discriminate | exact Hone].
  assert (Hcol : length (column 0 m) = length m)
    by (apply column_length; exact Hreach).
  assert (Hbig : 2 <= length m) by (unfold m; simpl; lia).
  assert (Eouter : broadcast (broadcast f) m [column 0 m]
                   = mapM (fun x => broadcast f x (column 0 m)) m).
  { unfold broadcast at 1. cbn [length].
    destruct (Nat.eqb_spec (length m) 1) as [E|_]; [lia|].
    reflexivity. }
  rewrite Eouter.
  destruct (mapM_In
              (fun row => length row = length m
                          /\ forall v, In v row -> P v)
              (fun x => broadcast f x (column 0 m)) m)
    as (o & Eo & Hlo & Ho).
  { intros x Hx. destruct (Hm x Hx) as (Hlx & HPx).
    destruct x as [|v [|v' x']]; simpl in Hlx; try discriminate.
    unfold broadcast. cbn [length].
    destruct (Nat.eqb_spec 1 (length (column 0 m))) as [E|_]; [lia|].
    destruct (mapM_In P (f v) (column 0 m))
      as (row & Erow & Hlrow & Hrow).
    { intros y Hy. apply f_keeps; [apply HPx; left; reflexivity|].
      apply column_In in Hy. destruct Hy as (r & Hr & Hy).
      apply (Hm r Hr). exact Hy. }
    exists row. split; [exact Erow|]. split; [lia | exact Hrow]. }
  exists o. split; [exact Eo|]. split; [exact Hlo | exact Ho].
Qed.

End Broadcast.

Section BroadcastTokens.
Import Torch.
Context {R : Type} `{Scalar R}.

Lemma tadd_3_broadcast (l t : tensor R 3) :
  tadd 3 l t = broadcast (broadcast (tadd 1)) l t.
Proof. reflexivity. Qed.

Lemma tadd_1_keeps_shape (c : nat) (x y : tensor R 1) :
  has_shape 1 [c] x = true -> has_shape 1 [c] y = true ->
  exists v, tadd 1 x y = Some v /\ has_shape 1 [c] v = true.
Proof. apply tadd_shape. Qed.

(** Rows of one length whose entries have one shape: a rank-3 tensor of
    that shape. *)
Lemma has_shape_3_intro (a b c : nat) (o : list (list (tensor R 1))) :
  length o = a ->
  (forall row, In row o ->
     length row = b /\ forall v, In v row -> has_shape 1 [c] v = true) ->
  has_shape 3 [a; b; c] (o : tensor R 3) = true.
Proof.
  intros Ha Hrows. apply has_shape_S. split; [reflexivity | split].
  - exact Ha.
  - intros row Hrow. destruct (Hrows row Hrow) as (Hb & Hv).
    apply has_shape_S. split; [reflexivity | split; assumption].
Qed.

Lemma has_shape_3_elim (a b c : nat) (l : tensor R 3) :
  has_shape 3 [a; b; c] l = true ->
  length (l : list (list (tensor R 1))) = a
  /\ forall row, In row (l : list (list (tensor R 1))) ->
       length row = b /\ forall v, In v row -> has_shape 1 [c] v = true.
Proof.
  intros Hl. apply has_shape_S in Hl. destruct Hl as (_ & Ha & Hrows).
  split; [exact Ha|]. intros row Hrow. apply Hrows in Hrow.
  apply has_shape_S in Hrow. destruct Hrow as (_ & Hb & Hv).
  split; assumption.
Qed.

(** With one token axis of size one and the other of size [K], the sum
    with the transposed is taken with broadcasting and has both token
    axes of size [K]. *)
Lemma tadd_transpose_broadcast_3 (K c : nat) (l : tensor R 3) :
  K <> 1 ->
  has_shape 3 [1; K; c] l = true \/ has_shape 3 [K; 1; c] l = true ->
  exists o,
    tadd 3 l (transpose_m2_m3 0 l) = Some o
    /\ has_shape 3 [K; K; c] o = true.
Proof.
  intros HK [Hl|Hl]; apply has_shape_3_elim in Hl;
    destruct Hl as (Hlen & Hrows);
    rewrite tadd_3_broadcast, transpose_m2_m3_0.
  - destruct l as [|r [|r' l']]; simpl in Hlen; try discriminate.
    destruct (Hrows r (or_introl eq_refl)) as (Hr & HP).
    destruct (broadcast_one_row (tadd 1)
                (fun v => has_shape 1 [c] v = true)
                (tadd_1_keeps_shape c) r) as (o & Eo & Hlo & Ho).
    { rewrite Hr. exact HK. }
    { exact HP. }
    exists o. split; [exact Eo|].
    apply has_shape_3_intro; [congruence|].
    intros row Hrow. destruct (Ho row Hrow) as (Hlr & Hv).
    split; [congruence | exact Hv].
  - destruct (broadcast_one_column (tadd 1)
                (fun v => has_shape 1 [c] v = true)
                (tadd_1_keeps_shape c) l) as (o & Eo & Hlo & Ho).
    { rewrite Hlen. exact HK. }
    { exact Hrows. }
    exists o. split; [exact Eo|].
    apply has_shape_3_intro; [congruence|].
    intros row Hrow. destruct (Ho row Hrow) as (Hlr & Hv).
    split; [congruence | exact Hv].
Qed.

Lemma tadd_transpose_broadcast (n : nat) (bs : list nat) (K c : nat)
    (l : tensor R (S (S (S n)))) :
  K <> 1 ->
  has_shape (S (S (S n))) (bs ++ [1; K; c]) l = true
  \/ has_shape (S (S (S n))) (bs ++ [K; 1; c]) l = true ->
  exists o,
    tadd (S (S (S n))) l (transpose_m2_m3 n l) = Some o
    /\ has_shape (S (S (S n))) (bs ++ [K; K; c]) o = true.
Proof.
  intros HK. revert bs l. induction n as [|n IH]; intros bs l Hl.
  - assert (Hbs : bs = []).
    { destruct Hl as [Hl|Hl]; apply has_shape_rank in Hl;
        rewrite length_app in Hl; simpl in Hl;
        destruct bs; [reflexivity | simpl in Hl; lia
                     | reflexivity | simpl in Hl; lia]. }
    subst bs. apply tadd_transpose_broadcast_3; assumption.
  - assert (Hbs : exists d bs', bs = d :: bs').
    { destruct Hl as [Hl|Hl]; apply has_shape_rank in Hl;
        rewrite length_app in Hl; simpl in Hl;
        (destruct bs as [|d bs']; [simpl in Hl; lia | eauto]). }
    destruct Hbs as (d & bs' & ->). simpl app in *.
    assert (Hin : length bs' = n /\
                  @length (tensor R (S (S (S n)))) l = d /\
                  forall x, In x (l : list (tensor R (S (S (S n))))) ->
                    has_shape (S (S (S n))) (bs' ++ [1; K; c]) x = true
                    \/ has_shape (S (S (S n))) (bs' ++ [K; 1; c]) x = true).
    { destruct Hl as [Hl|Hl]; apply has_shape_S in Hl;
        destruct Hl as (Hs & Hlen & Hx); rewrite length_app in Hs;
        simpl in Hs; (split; [lia | split; [exact Hlen|]]);
        intros x Hxl; [left | right]; apply Hx; exact Hxl. }
    destruct Hin as (Hs & Hlen & Hx).
    rewrite transpose_m2_m3_S.
    rewrite (tadd_S_same (S (S (S n))) l (map (transpose_m2_m3 n) l))
      by (rewrite length_map; reflexivity).
    rewrite (zipWithM_map_r (tensor R (S (S (S n))))
               (tensor R (S (S (S n)))) (tadd (S (S (S n))))
               (transpose_m2_m3 n) l).
    destruct (mapM_In
                (fun o => has_shape (S (S (S n))) (bs' ++ [K; K; c]) o
                          = true)
                (fun x => tadd (S (S (S n))) x (transpose_m2_m3 n x)) l)
      as (o & Eo & Hlo & Ho).
    { intros x Hxl. apply IH. apply Hx. exact Hxl. }
    exists o. split; [exact Eo|].
    apply has_shape_S. split; [|split].
    + rewrite length_app. simpl. lia.
    + exact (eq_trans Hlo Hlen).
    + exact Ho.
Qed.

(** X5.  A token axis of size one does not make [DistogramHead.forward]
    raise: on an input of shape [(..., 1, K, c_z)] or [(..., K, 1, c_z)],
    [K] other than one, the sum of the logits with their transposed is
    taken with broadcasting, and the output has shape
    [(..., K, K, no_bins)]. *)
Theorem DistogramHead_forward_broadcasts
    (h : DistogramHead.t R) (n : nat) (bs : list nat) (K : nat)
    (z : tensor R (S (S (S n)))) :
  DistogramHead.wf h = true ->
  K <> 1 ->
  has_shape (S (S (S n))) (bs ++ [1; K; DistogramHead.c_z h]) z = true
  \/ has_shape (S (S (S n))) (bs ++ [K; 1; DistogramHead.c_z h]) z = true ->
  exists out,
    DistogramHead.forward n z h = Some (out, h)
    /\ has_shape (S (S (S n))) (bs ++ [K; K; DistogramHead.no_bins h]) out
       = true.
Proof.
  unfold DistogramHead.wf. rewrite !andb_true_iff, !Nat.eqb_eq.
  intros [[Hin Hout] Hl] HK Hz. rewrite <- Hin in Hz. rewrite <- Hout.
  set (ci := Linear.in_features (DistogramHead.linear h)) in *.
  set (co := Linear.out_features (DistogramHead.linear h)) in *.
  assert (Hlogits :
            exists logits,
              linear (S (S n)) ci (Linear.weight (DistogramHead.linear h))
                (Linear.bias (DistogramHead.linear h)) z = Some logits
              /\ (has_shape (S (S (S n))) (bs ++ [1; K; co]) logits = true
                  \/ has_shape (S (S (S n))) (bs ++ [K; 1; co]) logits
                     = true)).
  { destruct Hz as [Hz|Hz].
    - replace (bs ++ [1; K; ci]) with ((bs ++ [1; K]) ++ [ci]) in Hz
        by (rewrite <- app_assoc; reflexivity).
      destruct (linear_shape _ _ _ z Hl Hz) as (logits & El & Hs).
      rewrite <- app_assoc in Hs. exists logits. split; [exact El|].
      left. exact Hs.
    - replace (bs ++ [K; 1; ci]) with ((bs ++ [K; 1]) ++ [ci]) in Hz
        by (rewrite <- app_assoc; reflexivity).
      destruct (linear_shape _ _ _ z Hl Hz) as (logits & El & Hs).
      rewrite <- app_assoc in Hs. exists logits. split; [exact El|].
      right. exact Hs. }
  destruct Hlogits as (logits & El & Hs).
  destruct (tadd_transpose_broadcast n bs K co logits HK Hs)
    as (out & Eo & Ho).
  exists out. rewrite DistogramHead_forward_eq. fold ci. rewrite El, Eo.
  split; [reflexivity | exact Ho].
Qed.

End BroadcastTokens.

Lemma DistogramHead_forward_broadcasts_witness :
  (exists out,
     DistogramHead.forward 0 (Example2.ramp 1 3 4) Example.distogram_head
     = Some (out, Example.distogram_head)
     /\ Torch.has_shape 3 [3; 3; 2] out = true)
  /\ (exists out,
        DistogramHead.forward 0 (Example2.ramp 3 1 4)
          Example.distogram_head
        = Some (out, Example.distogram_head)
        /\ Torch.has_shape 3 [3; 3; 2] out = true).
Proof.
  split.
  - apply (@DistogramHead_forward_broadcasts Z Z_Scalar
             Example.distogram_head 0 [] 3 (Example2.ramp 1 3 4));
      [reflexivity | discriminate | left; reflexivity].
  - apply (@DistogramHead_forward_broadcasts Z Z_Scalar
             Example.distogram_head 0 [] 3 (Example2.ramp 3 1 4));
      [reflexivity | discriminate | right; reflexivity].
Defined.

(** ** What a head returns at each token pair *)

Section MapFacts.
Context {X Y : Type}.

Lemma mapM_map_In (f : X -> option Y) (g : X -> Y) (l : list X) :
  (forall x, In x l -> f x = Some (g x)) -> mapM f l = Some (map g l).
Proof.
  induction l as [|x l IH]; intros Hf; [reflexivity|].
  cbn [mapM map]. rewrite (Hf x (or_introl eq_refl)), IH; [reflexivity|].
  intros x' Hx'. apply Hf. right. exact Hx'.
Qed.

Lemma column_map (f : X -> Y) (j : nat) (m : list (list X)) :
  column j (map (map f) m) = map f (column j m).
Proof.
  unfold column. induction m as [|r m IH]; [reflexivity|].
  cbn [map flat_map]. rewrite map_app, IH, nth_error_map.
  destruct (nth_error r j); reflexivity.
Qed.

(** Transposition commutes with a function applied to every entry. *)
Lemma transpose_map (f : X -> Y) (m : list (list X)) :
  transpose (map (map f) m) = map (map f) (transpose m).
Proof.
  destruct m as [|r m]; [reflexivity|].
  unfold transpose. cbn [map]. rewrite length_map, map_map.
  apply map_ext. intros j. apply (column_map f j (r :: m)).
Qed.

Lemma entry_map (f : X -> Y) (m : list (list X)) (i j : nat) :
  entry (map (map f) m) i j = option_map f (entry m i j).
Proof.
  unfold entry. rewrite nth_error_map.
  destruct (nth_error m i) as [r|]; [|reflexivity].
  cbn [option_map]. apply nth_error_map.
Qed.

End MapFacts.

Section Involution.
Context {X : Type}.

(** Transposing twice gives the rows back, for rows of one length that
    is not zero. *)
Lemma transpose_involutive (m : list (list X)) (w : nat) :
  0 < w -> (forall r, In r m -> length r = w) ->
  transpose (transpose m) = m.
Proof.
  intros Hw Hm. destruct m as [|r0 m']; [reflexivity|].
  set (m := r0 :: m') in *.
  assert (Hne : m <> []) by discriminate.
  assert (Hreach : forall j, j < w -> forall r, In r m -> j < length r).
  { intros j Hj r Hr. rewrite (Hm r Hr). exact Hj. }
  assert (Hrows' : forall c, In c (transpose m) -> length c = length m).
  { intros c Hc. apply (transpose_In m w c Hm) in Hc.
    destruct Hc as (j & Hj & ->). apply column_length.
    apply Hreach. exact Hj. }
  assert (Hne' : transpose m <> []).
  { intros E. pose proof (transpose_length m w Hne Hm) as Hl.
    rewrite E in Hl. simpl in Hl. lia. }
  apply nth_error_ext. intros i.
  rewrite (transpose_nth_error (transpose m) (length m) i Hne' Hrows').
  destruct (Nat.ltb_spec i (length m)) as [Hi|Hi].
  - destruct (nth_error m i) as [r|] eqn:Er;
      [|apply nth_error_None in Er; lia].
    f_equal. apply nth_error_ext. intros j.
    assert (Hr : length r = w)
      by (apply Hm; eapply nth_error_In; exact Er).
    rewrite column_nth_error.
    + rewrite (transpose_nth_error m w j Hne Hm).
      destruct (Nat.ltb_spec j w) as [Hj|Hj].
      * rewrite (column_nth_error m j i (Hreach j Hj)), Er. reflexivity.
      * symmetry. apply nth_error_None. lia.
    + intros c Hc. rewrite (Hrows' c Hc). exact Hi.
  - symmetry. apply nth_error_None. exact Hi.
Qed.

End Involution.

Section Pointwise.
Import Torch.
Context {R : Type} `{Scalar R}.

Lemma map_last_0 (f : list R -> list R) (x : tensor R 1) :
  map_last 0 f x = f x.
Proof. reflexivity. Qed.

Lemma map_last_S (n : nat) (f : list R -> list R)
    (t : list (tensor R (S n))) :
  map_last (S n) f t = map (map_last n f) t.
Proof. reflexivity. Qed.

Lemma map_last_2 (f : list R -> list R) (t : list (list (tensor R 1))) :
  map_last 2 f t = map (map f) t.
Proof. reflexivity. Qed.

Lemma map_last_compose (n : nat) (f g : list R -> list R)
    (t : tensor R (S n)) :
  map_last n f (map_last n g t) = map_last n (fun x => f (g x)) t.
Proof.
  revert t. induction n as [|n IH]; intros t; [reflexivity|].
  rewrite !map_last_S, map_map. apply map_ext. exact IH.
Qed.

(** Where a layer returns, it has applied its affine map to every
    feature vector. *)
Lemma linear_map_last (n cin : nat) (w : list (list R))
    (b : option (list R)) (s : list nat) (t : tensor R (S n)) :
  has_shape (S n) (s ++ [cin]) t = true ->
  linear n cin w b t = Some (map_last n (affine w b) t).
Proof.
  revert s t. induction n as [|n IH]; intros s t Ht.
  - leading_sizes Ht s d.
    apply has_shape_S in Ht. destruct Ht as (_ & Hlen & _).
    rewrite linear_0, Hlen, Nat.eqb_refl. reflexivity.
  - leading_sizes Ht s d.
    apply has_shape_S in Ht. destruct Ht as (_ & _ & Hin).
    rewrite linear_S, map_last_S.
    apply (@mapM_map_In (tensor R (S n)) (tensor R (S n))).
    intros x Hx. apply (IH s). apply Hin. exact Hx.
Qed.

Lemma transpose_map_last (n : nat) (f : list R -> list R)
    (t : tensor R (S (S (S n)))) :
  transpose_m2_m3 n (map_last (S (S n)) f t)
  = map_last (S (S n)) f (transpose_m2_m3 n t).
Proof.
  revert t. induction n as [|n IH]; intros t.
  - rewrite !transpose_m2_m3_0. apply (transpose_map f t).
  - rewrite (map_last_S (S (S n)) f t), !transpose_m2_m3_S,
      (map_last_S (S (S n)) f), !map_map.
    apply map_ext. exact IH.
Qed.

Lemma item_map_last (n : nat) (f : list R -> list R)
    (t : tensor R (S (S (S n)))) (idx : list nat) (i j : nat) :
  item n (map_last (S (S n)) f t) idx i j
  = option_map f (item n t idx i j).
Proof.
  revert t idx. induction n as [|n IH]; intros t idx.
  - unfold item. destruct idx as [|k idx]; [|reflexivity].
    cbn [batch_item]. apply (entry_map f t i j).
  - destruct idx as [|k idx]; [reflexivity|].
    unfold item in *.
    change (batch_item (S n) (k :: idx) (map_last (S (S (S n))) f t))
      with (match @nth_error (tensor R (S (S (S n))))
                    (map (map_last (S (S n)) f) t) k with
            | Some t' => batch_item n idx t'
            | None => None
            end).
    change (batch_item (S n) (k :: idx) t)
      with (match @nth_error (tensor R (S (S (S n)))) t k with
            | Some t' => batch_item n idx t'
            | None => None
            end).
    rewrite nth_error_map.
    destruct (@nth_error (tensor R (S (S (S n)))) t k) as [x|];
      [|reflexivity].
    apply IH.
Qed.

(** On a tensor with two token axes of equal size, transposing twice is
    the identity. *)
Lemma transpose_m2_m3_involutive (n : nat) (bs : list nat) (N c : nat)
    (t : tensor R (S (S (S n)))) :
  has_shape (S (S (S n))) (bs ++ [N; N; c]) t = true ->
  transpose_m2_m3 n (transpose_m2_m3 n t) = t.
Proof.
  revert bs t. induction n as [|n IH]; intros bs t Ht.
  - leading_sizes Ht bs d. rewrite !transpose_m2_m3_0.
    apply has_shape_S in Ht. destruct Ht as (_ & Hlen & Hrows).
    destruct t as [|r0 t']; [reflexivity|].
    apply (transpose_involutive (r0 :: t') N).
    + simpl in Hlen. lia.
    + intros r Hr. apply Hrows in Hr. apply has_shape_S in Hr. tauto.
  - leading_sizes Ht bs d. rewrite !transpose_m2_m3_S, map_map.
    apply has_shape_S in Ht. destruct Ht as (_ & _ & Hin).
    rewrite <- (map_id t) at 2. apply map_ext_in.
    intros x Hx. apply (IH bs). apply Hin. exact Hx.
Qed.

End Pointwise.

Section TokenPairs.
Import Torch.
Context {R : Type} `{Scalar R}.

(** X1.  The distogram does not tell an input from its transposed: on an
    input of shape [(..., N, N, c_z)], [DistogramHead.forward] returns on
    [z.transpose(-2, -3)] what it returns on [z].  Addition of scalars
    is assumed commutative. *)
Theorem DistogramHead_forward_transposed_input
    (add_comm : forall a b : R, (a + b)%R = (b + a)%R)
    (h : DistogramHead.t R) (n : nat) (bs : list nat) (N : nat)
    (z : tensor R (S (S (S n)))) :
  DistogramHead.wf h = true ->
  has_shape (S (S (S n))) (bs ++ [N; N; DistogramHead.c_z h]) z = true ->
  DistogramHead.forward n (transpose_m2_m3 n z) h
  = DistogramHead.forward n z h.
Proof.
  intros Hh Hz.
  pose proof (transpose_shape n bs N _ z Hz) as Hz'.
  destruct (DistogramHead_forward_returns h n bs N z Hh Hz)
    as (logits & out & El & Hl & _ & _ & _).
  rewrite Linear_forward_eq in El.
  unfold DistogramHead.wf in Hh.
  rewrite !andb_true_iff, !Nat.eqb_eq in Hh. destruct Hh as [[Hin _] _].
  rewrite <- Hin in Hz, Hz'.
  replace (bs ++ [N; N; Linear.in_features (DistogramHead.linear h)])
    with ((bs ++ [N; N]) ++ [Linear.in_features (DistogramHead.linear h)])
    in Hz, Hz' by (rewrite <- app_assoc; reflexivity).
  pose proof (linear_map_last _ _ (Linear.weight (DistogramHead.linear h))
                (Linear.bias (DistogramHead.linear h)) _ _ Hz) as E.
  pose proof (linear_map_last _ _ (Linear.weight (DistogramHead.linear h))
                (Linear.bias (DistogramHead.linear h)) _ _ Hz') as E'.
  rewrite E in El.
  assert (Elog : map_last (S (S n))
                   (affine (Linear.weight (DistogramHead.linear h))
                      (Linear.bias (DistogramHead.linear h))) z = logits)
    by congruence.
  rewrite <- transpose_map_last, Elog in E'.
  rewrite !DistogramHead_forward_eq, E, E', Elog.
  rewrite (transpose_m2_m3_involutive n bs N _ logits Hl).
  rewrite (tadd_comm add_comm _ (transpose_m2_m3 n logits) logits).
  reflexivity.
Qed.

(** X2.  Each output vector of [DistogramHead.forward] is made of two
    input vectors only: at [(..., i, j)] it is the sum of the layer's
    affine map on the input vector at [(..., i, j)] and on the one at
    [(..., j, i)]. *)
Theorem DistogramHead_forward_at_pair
    (h : DistogramHead.t R) (n : nat) (bs : list nat) (N : nat)
    (z : tensor R (S (S (S n)))) :
  DistogramHead.wf h = true ->
  has_shape (S (S (S n))) (bs ++ [N; N; DistogramHead.c_z h]) z = true ->
  exists out,
    DistogramHead.forward n z h = Some (out, h)
    /\ forall idx i j,
         item n out idx i j
         = pair_sum
             (option_map (affine (Linear.weight (DistogramHead.linear h))
                   (Linear.bias (DistogramHead.linear h)))
                (item n z idx i j))
             (option_map (affine (Linear.weight (DistogramHead.linear h))
                   (Linear.bias (DistogramHead.linear h)))
                (item n z idx j i)).
Proof.
  intros Hh Hz.
  destruct (DistogramHead_forward_returns h n bs N z Hh Hz)
    as (logits & out & El & Hl & Eo & _ & Ef).
  exists out. split; [exact Ef|]. intros idx i j.
  rewrite (item_tadd_transpose n bs N _ logits out Hl Eo).
  rewrite Linear_forward_eq in El.
  unfold DistogramHead.wf in Hh.
  rewrite !andb_true_iff, !Nat.eqb_eq in Hh. destruct Hh as [[Hin _] _].
  rewrite <- Hin in Hz.
  replace (bs ++ [N; N; Linear.in_features (DistogramHead.linear h)])
    with ((bs ++ [N; N]) ++ [Linear.in_features (DistogramHead.linear h)])
    in Hz by (rewrite <- app_assoc; reflexivity).
  rewrite (linear_map_last _ _ (Linear.weight (DistogramHead.linear h))
             (Linear.bias (DistogramHead.linear h)) _ _ Hz) in El.
  assert (Elog : map_last (S (S n))
                   (affine (Linear.weight (DistogramHead.linear h))
                      (Linear.bias (DistogramHead.linear h))) z = logits)
    by congruence.
  rewrite <- Elog, !item_map_last. reflexivity.
Qed.

(** X10.  [BondTypeHead.forward] classifies each token pair on its own:
    on an input of shape [(..., N, N, c_in)] the output, under its
    leading axis, holds at [(..., i, j)] the second layer's affine map of
    the first layer's affine map of the input vector at [(..., i, j)],
    and nothing of the vector at [(..., j, i)]. *)
Theorem BondTypeHead_forward_at_pair
    (h : BondTypeHead.t R) (l1 l2 : Linear.t R) (n : nat)
    (bs : list nat) (N : nat) (z : tensor R (S (S (S n)))) :
  BondTypeHead.wf h = true ->
  BondTypeHead.classifier h = [l1; l2] ->
  has_shape (S (S (S n))) (bs ++ [N; N; BondTypeHead.c_in h]) z = true ->
  exists logits : tensor R (S (S (S n))),
    BondTypeHead.forward (S (S (S n))) z h = Some (unsqueeze0 logits, h)
    /\ forall idx i j,
         item n logits idx i j
         = option_map (fun v => affine (Linear.weight l2) (Linear.bias l2)
                           (affine (Linear.weight l1) (Linear.bias l1) v))
             (item n z idx i j).
Proof.
  unfold BondTypeHead.wf. intros Hh Hc Hz. rewrite Hc in Hh.
  rewrite !andb_true_iff, !Nat.eqb_eq in Hh.
  destruct Hh as [[[[[Hi1 Ho1] Hi2] _] Hw1] _].
  rewrite BondTypeHead_forward_eq, Sequential_run_unsqueeze, Hc,
    Sequential_run_two.
  rewrite <- Hi1 in Hz.
  replace (bs ++ [N; N; Linear.in_features l1])
    with ((bs ++ [N; N]) ++ [Linear.in_features l1]) in Hz
    by (rewrite <- app_assoc; reflexivity).
  destruct (linear_shape l1 _ _ z Hw1 Hz) as (y & Ey & Hy).
  rewrite Ho1, <- Hi2 in Hy.
  pose proof (linear_map_last _ _ (Linear.weight l1) (Linear.bias l1)
                _ _ Hz) as E1.
  assert (Ey' : map_last (S (S n))
                  (affine (Linear.weight l1) (Linear.bias l1)) z = y)
    by congruence.
  rewrite Ey.
  rewrite (linear_map_last _ _ (Linear.weight l2) (Linear.bias l2) _ _ Hy).
  eexists. split; [reflexivity|]. intros idx i j.
  rewrite <- Ey', map_last_compose. apply item_map_last.
Qed.

End TokenPairs.

Lemma DistogramHead_forward_transposed_input_witness :
  DistogramHead.forward 1
    (Torch.transpose_m2_m3 1 Example.z_1334) Example.distogram_head
  = DistogramHead.forward 1 Example.z_1334 Example.distogram_head.
Proof.
  apply (@DistogramHead_forward_transposed_input Z Z_Scalar Z.add_comm
           Example.distogram_head 1 [1] 3 Example.z_1334);
    reflexivity.
Defined.

Lemma DistogramHead_forward_at_pair_witness :
  exists out,
    DistogramHead.forward 1 Example.z_1334 Example.distogram_head
    = Some (out, Example.distogram_head)
    /\ forall idx i j,
         Torch.item 1 out idx i j
         = Torch.pair_sum
             (option_map
                (Torch.affine
                   (Linear.weight
                      (DistogramHead.linear Example.distogram_head))
                   (Linear.bias
                      (DistogramHead.linear Example.distogram_head)))
                (Torch.item 1 Example.z_1334 idx i j))
             (option_map
                (Torch.affine
                   (Linear.weight
                      (DistogramHead.linear Example.distogram_head))
                   (Linear.bias
                      (DistogramHead.linear Example.distogram_head)))
                (Torch.item 1 Example.z_1334 idx j i)).
Proof.
  apply (@DistogramHead_forward_at_pair Z Z_Scalar
           Example.distogram_head 1 [1] 3 Example.z_1334);
    reflexivity.
Defined.

Lemma BondTypeHead_forward_at_pair_witness :
  exists logits : Torch.tensor Z 3,
    BondTypeHead.forward 3 Example.z_334 Example.bond_type_head
    = Some (Torch.unsqueeze0 logits, Example.bond_type_head)
    /\ forall idx i j,
         Torch.item 0 logits idx i j
         = option_map
             (fun v =>
                Torch.affine [[1; 1; 0]; [2; 0; -1]]%Z (Some [4; 6]%Z)
                  (Torch.affine
                     [[1; 0; 2; 0]; [0; 1; 0; -1]; [3; 1; 1; 1]]%Z
                     (Some [1; -2; 0]%Z) v))
             (Torch.item 0 Example.z_334 idx i j).
Proof.
  apply (@BondTypeHead_forward_at_pair Z Z_Scalar Example.bond_type_head
           (Linear.mk 4 3 [[1; 0; 2; 0]; [0; 1; 0; -1]; [3; 1; 1; 1]]%Z
              (Some [1; -2; 0]%Z))
           (Linear.mk 3 2 [[1; 1; 0]; [2; 0; -1]]%Z (Some [4; 6]%Z))
           0 [] 3 Example.z_334);
    reflexivity.
Defined.

(* ================================================================== *)
(** ** The flag and the sub-module of the pairwise head *)

Section FlagAndSubmodule.
Import Torch.
Context {R : Type} `{Scalar R}.

(** X11.  [PairwiseHead.forward] consults the flag, not the presence of
    the sub-module.  A head whose flag is set but which holds no
    bond-type head (built without it, flag set afterwards) raises on
    every input.  A head whose flag is cleared returns the distogram
    alone, with an absent bond-type field, whether it holds a bond-type
    head or not. *)
Theorem PairwiseHead_forward_follows_flag (h : PairwiseHead.t R) :
  (PairwiseHead.bond_reconstruction h = true ->
   PairwiseHead.bond_type_head h = None ->
   forall n (e : PairFormerOutput R n), PairwiseHead.forward n e h = None)
  /\
  (PairwiseHead.bond_reconstruction h = false ->
   forall n (e : PairFormerOutput R n),
     PairwiseHead.forward n e h
     = match DistogramHead.forward n (z e) (PairwiseHead.distogram_head h)
       with
       | Some (d, _) =>
           Some (mkPairwiseOutput (pack (S (S (S n))) d) None, h)
       | None => None
       end).
Proof.
  split.
  - intros Hflag Hb n e. rewrite PairwiseHead_forward_eq, Hflag, Hb.
    destruct (DistogramHead.forward _ _ _) as [[d dh]|]; reflexivity.
  - intros Hflag n e. rewrite PairwiseHead_forward_eq, Hflag.
    reflexivity.
Qed.

End FlagAndSubmodule.

Lemma PairwiseHead_forward_follows_flag_witness :
  PairwiseHead.forward 1 (mkPairFormerOutput 1 Example.z_1334)
    Example2.flag_set_later = None
  /\ (exists d,
        PairwiseHead.forward 1 (mkPairFormerOutput 1 Example.z_1334)
          Example2.flag_cleared_later
        = Some (mkPairwiseOutput (Torch.pack 4 d) None,
                Example2.flag_cleared_later)).
Proof.
  split.
  - apply (proj1 (@PairwiseHead_forward_follows_flag Z Z_Scalar
                    Example2.flag_set_later)); reflexivity.
  - rewrite (proj2 (@PairwiseHead_forward_follows_flag Z Z_Scalar
                      Example2.flag_cleared_later) eq_refl).
    eexists. reflexivity.
Defined.
